(** * MediaConverter: the option translator and the process runner

    A shallow embedding of [converter.py]: the [ConvertOptions] record,
    the three argument builders of [MediaConverter] ([_build_filter],
    [_build_video_opts], [_build_image_opts]), the driver [convert] and
    the size-targeted [compress_media].

    Conventions.
    - Python [int] is [Z]; [Optional[T]] is [option T]; [str] is [string];
      a [List[str]] command line is [list string].
    - [str(n)] on an [int] is stdpp's [pretty] on [Z] (decimal digits, a
      leading minus sign for negatives).
    - Python truthiness is written out: an [Optional[int]] is truthy when it
      is neither [None] nor [0], an [Optional[str]] when it is neither
      [None] nor the empty string.
    - Dictionaries are [gmap string _], the extension sets are [gset string].
    - Python [float] is IEEE 754 binary64, taken from [SpecFloat] with
      [prec = 53] and [emax = 1024]. *)

From Stdlib Require Import ZArith List Ascii String Bool Lia.
From Stdlib Require Import SpecFloat.
From stdpp Require Import base option list strings pretty gmap.

Local Open Scope string_scope.
Local Open Scope list_scope.
Local Open Scope Z_scope.

(** ** Strings *)

Module Py.

(** [str.lower] on the ASCII range: [A]..[Z] go to [a]..[z], every other
    byte is kept. *)
Definition lower_ascii (c : ascii) : ascii :=
  let n := nat_of_ascii c in
  if (Nat.leb 65 n && Nat.leb n 90)%bool then ascii_of_nat (n + 32) else c.

Fixpoint lower (s : string) : string :=
  match s with
  | EmptyString => EmptyString
  | String c s' => String (lower_ascii c) (lower s')
  end.

(** [str(n)] for an [int]. *)
Definition str (n : Z) : string := pretty n.

(** [sep.join(l)]. *)
Definition join (sep : string) (l : list string) : string :=
  String.concat sep l.

(** Truthiness of an [Optional[int]] and of an [Optional[str]]. *)
Definition truthy_int (x : option Z) : bool :=
  match x with
  | Some v => negb (v =? 0)
  | None => false
  end.

Definition truthy_str (x : option string) : bool :=
  match x with
  | Some s => negb (String.eqb s "")
  | None => false
  end.

(** [x or d]. *)
Definition or_int (x : option Z) (d : Z) : Z :=
  match x with
  | Some v => if v =? 0 then d else v
  | None => d
  end.

Definition or_str (x : option string) (d : string) : string :=
  match x with
  | Some s => if String.eqb s "" then d else s
  | None => d
  end.

End Py.

(** ** The options record *)

Record ConvertOptions : Type := mkOptions {
  width : option Z;
  height : option Z;
  fps : option Z;
  quality : option Z;
  bitrate : option string;
  audio_bitrate : option string;
  codec : option string;
  preset : option string;
  extra_args : option (list string);
  output_dir : option string
}.

(** [ConvertOptions()]: every field [None]. *)
Definition default_options : ConvertOptions :=
  mkOptions None None None None None None None None None None.

(** ** Extension tables *)

Definition VIDEO_EXTS : gset string :=
  list_to_set [".mp4"; ".avi"; ".mkv"; ".mov"; ".wmv"; ".flv"; ".webm";
               ".m4v"; ".ts"; ".m2ts"].

Definition IMAGE_EXTS : gset string :=
  list_to_set [".jpg"; ".jpeg"; ".png"; ".bmp"; ".gif"; ".webp"; ".tiff";
               ".tif"; ".ico"; ".raw"; ".cr2"; ".nef"].

Definition AUDIO_EXTS : gset string :=
  list_to_set [".mp3"; ".wav"; ".aac"; ".flac"; ".ogg"; ".m4a"; ".wma"].

Definition codec_map : gmap string string :=
  list_to_map [(".mp4", "libx264"); (".mov", "libx264"); (".m4v", "libx264");
               (".avi", "libxvid");
               (".mkv", "libx264");
               (".webm", "libvpx-vp9");
               (".wmv", "wmv2");
               (".flv", "libx264");
               (".gif", "gif")].

(** ** Argument builders *)

(** [MediaConverter._build_filter]. *)
Definition _build_filter (opts : ConvertOptions) : list string :=
  let filters : list string := [] in
  let filters :=
    if (Py.truthy_int (width opts) || Py.truthy_int (height opts))%bool then
      let w := Py.or_int (width opts) (-1) in
      let h := Py.or_int (height opts) (-1) in
      if w =? -1 then filters ++ ["scale=-1:" +:+ Py.str h]
      else if h =? -1 then filters ++ ["scale=" +:+ Py.str w +:+ ":-1"]
      else filters ++ ["scale=" +:+ Py.str w +:+ ":" +:+ Py.str h]
    else filters in
  let filters :=
    match fps opts with
    | Some f => if f =? 0 then filters else filters ++ ["fps=" +:+ Py.str f]
    | None => filters
    end in
  match filters with
  | [] => []
  | _ :: _ => ["-vf"; Py.join "," filters]
  end.

(** The fixed palette filter graph of the GIF branch. *)
Definition gif_filter (opts : ConvertOptions) : string :=
  "fps=" +:+ Py.str (Py.or_int (fps opts) 30) +:+
  ",scale=" +:+ Py.str (Py.or_int (width opts) 480) +:+
  ":-1:flags=lanczos,split[s0][s1];[s0]palettegen=max_colors=128[p];[s1][p]paletteuse".

(** [MediaConverter._build_video_opts]. *)
Definition _build_video_opts (output_ext : string) (opts : ConvertOptions)
  : list string :=
  let args := _build_filter opts in
  let tail (args : list string) : list string :=
    let args :=
      match quality opts with
      | Some q => args ++ ["-crf"; Py.str q]
      | None =>
          if Py.truthy_str (bitrate opts)
          then args ++ ["-b:v"; default "" (bitrate opts)]
          else args
      end in
    let args :=
      if Py.truthy_str (preset opts)
      then args ++ ["-preset"; default "" (preset opts)]
      else args in
    let args :=
      if Py.truthy_str (audio_bitrate opts)
      then args ++ ["-c:a"; "aac"; "-b:a"; default "" (audio_bitrate opts)]
      else args ++ ["-c:a"; "aac"; "-b:a"; "192k"] in
    match extra_args opts with
    | Some (x :: l) => args ++ x :: l
    | _ => args
    end in
  if Py.truthy_str (codec opts) then
    tail (args ++ ["-c:v"; default "" (codec opts)])
  else
    match codec_map !! Py.lower output_ext with
    | Some c =>
        if String.eqb (Py.lower output_ext) ".gif" then
          args ++ ["-vf"; gif_filter opts; "-loop"; "0"]
        else tail (args ++ ["-c:v"; c])
    | None => tail args
    end.

(** [MediaConverter._build_image_opts]. *)
Definition _build_image_opts (output_ext : string) (opts : ConvertOptions)
  : list string :=
  let args : list string := [] in
  let vf : list string := [] in
  let vf :=
    if (Py.truthy_int (width opts) || Py.truthy_int (height opts))%bool then
      let w := Py.or_int (width opts) (-1) in
      let h := Py.or_int (height opts) (-1) in
      vf ++ ["scale=" +:+ Py.str w +:+ ":" +:+ Py.str h +:+ ":flags=lanczos"]
    else vf in
  let q := default 2 (quality opts) in
  let ext := Py.lower output_ext in
  let '(vf, args) :=
    if (String.eqb ext ".jpg" || String.eqb ext ".jpeg")%bool then
      (vf ++ ["format=yuvj420p"],
       args ++ ["-q:v"; Py.str (Z.min (Z.max q 2) 31)])
    else if String.eqb ext ".png" then
      let compression := Z.min (Z.max (q / 3) 0) 9 in
      (vf, args ++ ["-compression_level"; Py.str compression])
    else if String.eqb ext ".webp" then
      (vf, args ++ ["-q:v"; Py.str (Z.min (Z.max q 1) 100)])
    else (vf, args) in
  let args :=
    match vf with
    | [] => args
    | _ :: _ => args ++ ["-vf"; Py.join "," vf]
    end in
  args ++ ["-y"].

(** ** Paths

    The [pathlib] operations the converter calls, on plain strings.  A path
    is a sequence of components separated by [/] or [\]; the model covers
    paths that do not end in a separator. *)

Module Path.

Definition is_sep (c : ascii) : bool :=
  (Ascii.eqb c "/" || Ascii.eqb c "\")%bool.

Fixpoint has (p : ascii -> bool) (s : string) : bool :=
  match s with
  | EmptyString => false
  | String c s' => (p c || has p s')%bool
  end.

(** [Path(p).name]: what follows the last separator. *)
Fixpoint name (p : string) : string :=
  match p with
  | EmptyString => EmptyString
  | String c p' =>
      if has is_sep p' then name p'
      else if is_sep c then p' else p
  end.

(** [s[s.rfind('.'):]], or the empty string when [s] has no dot. *)
Fixpoint from_last_dot (s : string) : string :=
  match s with
  | EmptyString => EmptyString
  | String c s' =>
      if has (Ascii.eqb ".") s' then from_last_dot s'
      else if Ascii.eqb c "." then s else EmptyString
  end.

(** [Path(p).suffix]: with [i = name.rfind('.')], the text [name[i:]] when
    [0 < i < len(name) - 1], and the empty string otherwise. *)
Definition suffix (p : string) : string :=
  match name p with
  | EmptyString => EmptyString
  | String _ rest =>
      let e := from_last_dot rest in
      if Nat.leb (String.length e) 1 then EmptyString else e
  end.

Fixpoint take (n : nat) (s : string) : string :=
  match n, s with
  | S n', String c s' => String c (take n' s')
  | _, _ => EmptyString
  end.

(** [Path(p).stem]: the name without its suffix. *)
Definition stem (p : string) : string :=
  let nm := name p in
  take (String.length nm - String.length (suffix p)) nm.

(** [Path(p).parent], [None] standing for the current directory. *)
Definition parent (p : string) : option string :=
  let n := (String.length p - String.length (name p))%nat in
  match n with
  | O => None
  | S n' => Some (take n' p)
  end.

(** [str(dir / file)]. *)
Definition join (dir : option string) (file : string) : string :=
  match dir with
  | Some d => d +:+ "\" +:+ file
  | None => file
  end.

End Path.

(** ** The host: interpreter, file system and the two executables *)

(** Exceptions the modelled code can meet. *)
Inductive exn : Type :=
| ValueError
| OverflowError
| OSError
| TypeError.

(** What is observed once the engine process has ended: its exit status and
    the size of the output file, [None] when [os.path.getsize] raises
    because the file is not there. *)
Record engine_run : Type := mkRun {
  returncode : Z;
  out_size : option Z
}.

Record Host : Type := mkHost {
  (** [self.ffmpeg_path] and [self.ffprobe_path] *)
  ffmpeg_path : option string;
  ffprobe_path : option string;
  (** [os.path.exists] *)
  path_exists : string -> bool;
  (** the builtin [float] on a [str]; [None] when it raises [ValueError] *)
  float_of_str : string -> option spec_float;
  (** [subprocess.run] on the probe: its standard output, [None] when the
      call raises *)
  run_probe : list string -> option string;
  (** [subprocess.Popen] on the engine followed by [wait]; [None] when
      spawning raises *)
  run_engine : list string -> option engine_run
}.

(** Console reports that carry an outcome. The informational lines (names,
    sizes, the progress lines echoed while the engine runs) do not influence
    any result and are left out of the trace. *)
Inductive message : Type :=
| MissingInput (file : string)
| ImageToVideoMode
| VideoToImageMode
| ConvertOk (bytes : Z)
| ConvertFailed
| ConvertError
| NoInfo
| NoDuration
| TargetSize (mb : Z)
| ComputedBitrate (b : option string).

Inductive event : Type :=
| Report (m : message)
| Mkdir (dir : string)
| Probe (cmd : list string)
| Engine (cmd : list string).

(** A computation leaves a trace of events and either returns or raises. *)
Definition M (A : Type) : Type := (list event * (exn + A))%type.

Definition ret {A} (a : A) : M A := ([], inr a).
Definition raise {A} (e : exn) : M A := ([], inl e).
Definition emit (e : event) : M unit := ([e], inr tt).

Definition bind {A B} (m : M A) (k : A -> M B) : M B :=
  match m with
  | (t, inl e) => (t, inl e)
  | (t, inr a) => let '(t', r) := k a in (t ++ t', r)
  end.

(** [try: m except Exception: h]. *)
Definition catch {A} (m : M A) (h : M A) : M A :=
  match m with
  | (t, inl _) => let '(t', r) := h in (t ++ t', r)
  | (t, inr a) => (t, inr a)
  end.

Definition lift {A} (e : exn) (o : option A) : M A :=
  match o with
  | Some a => ret a
  | None => raise e
  end.

Declare Scope run_scope.
Delimit Scope run_scope with run.
Notation "x <- m ;; k" := (bind m (fun x => k))
  (at level 100, m at next level, right associativity) : run_scope.
Notation "m ;;; k" := (bind m (fun _ => k))
  (at level 100, right associativity) : run_scope.
Local Open Scope run_scope.

Definition trace {A} (m : M A) : list event := fst m.
Definition result {A} (m : M A) : exn + A := snd m.

(** ** The driver *)

Definition is_video_ext (ext : string) : bool :=
  (bool_decide (ext ∈ VIDEO_EXTS) || String.eqb ext ".gif")%bool.

Definition is_image_ext (ext : string) : bool :=
  bool_decide (ext ∈ IMAGE_EXTS).

(** The command line [convert] hands to the engine, [ffmpeg] being
    [self.ffmpeg_path]. *)
Definition convert_cmd (ffmpeg input_file output_file : string)
    (opts : ConvertOptions) : list string :=
  let input_ext := Py.lower (Path.suffix input_file) in
  let output_ext := Py.lower (Path.suffix output_file) in
  let is_video_input := is_video_ext input_ext in
  let is_image_input := is_image_ext input_ext in
  let is_video_output := is_video_ext output_ext in
  let cmd := [ffmpeg; "-i"; input_file] in
  let cmd :=
    if is_video_output then
      if is_image_input then
        let duration := 5 in
        let cmd := [ffmpeg; "-loop"; "1"; "-i"; input_file;
                    "-c:v"; Py.or_str (codec opts) "libx264";
                    "-t"; Py.str duration;
                    "-pix_fmt"; "yuv420p"] in
        let cmd := cmd ++ _build_filter opts in
        match quality opts with
        | Some q => if q =? 0 then cmd else cmd ++ ["-crf"; Py.str q]
        | None => cmd
        end
      else cmd ++ _build_video_opts output_ext opts
    else
      let cmd :=
        if is_video_input then cmd ++ ["-ss"; "00:00:01"; "-vframes"; "1"]
        else cmd in
      cmd ++ _build_image_opts output_ext opts in
  cmd ++ [output_file].

(** The mode notice printed while the command is built. *)
Definition convert_notice (input_file output_file : string) : list event :=
  let input_ext := Py.lower (Path.suffix input_file) in
  let output_ext := Py.lower (Path.suffix output_file) in
  if is_video_ext output_ext then
    if is_image_ext input_ext then [Report ImageToVideoMode] else []
  else
    if is_video_ext input_ext then [Report VideoToImageMode] else [].

(** [MediaConverter.convert]; [None] for [opts] is the default argument. *)
Definition convert (h : Host) (input_file output_file : string)
    (opts : option ConvertOptions) : M bool :=
  if negb (path_exists h input_file) then
    emit (Report (MissingInput input_file)) ;;; ret false
  else
    let opts := default default_options opts in
    (convert_notice input_file output_file, inr tt) ;;;
    catch
      (ffmpeg <- lift TypeError (ffmpeg_path h) ;;
       let cmd := convert_cmd ffmpeg input_file output_file opts in
       emit (Engine cmd) ;;;
       process <- lift OSError (run_engine h cmd) ;;
       if returncode process =? 0 then
         size <- lift OSError (out_size process) ;;
         emit (Report (ConvertOk size)) ;;;
         ret true
       else
         emit (Report ConvertFailed) ;;;
         ret false)
      (emit (Report ConvertError) ;;; ret false).

(** ** Binary64 arithmetic *)

Module F64.

Definition prec : Z := 53.
Definition emax : Z := 1024.

Definition zero : spec_float := S754_zero false.

(** The nearest binary64 value to an integer (ties to even). *)
Definition of_Z (n : Z) : spec_float := binary_normalize prec emax n 0 false.

(** [float(n)] and the implicit conversion of an [int] operand: an
    [OverflowError] when the integer is out of range. *)
Definition of_int (n : Z) : M spec_float :=
  match of_Z n with
  | S754_infinity _ => raise OverflowError
  | f => ret f
  end.

Definition div (x y : spec_float) : spec_float := SFdiv prec emax x y.
Definition mul (x y : spec_float) : spec_float := SFmul prec emax x y.
Definition sub (x y : spec_float) : spec_float := SFsub prec emax x y.
Definition eqb (x y : spec_float) : bool := SFeqb x y.

(** The literal [0.9]: the binary64 value nearest to nine tenths. *)
Definition c0_9 : spec_float := S754_finite false 8106479329266893 (-53).

(** [int(x)]: truncation towards zero; infinities and NaN raise. *)
Definition to_int (x : spec_float) : M Z :=
  match x with
  | S754_zero _ => ret 0
  | S754_infinity _ => raise OverflowError
  | S754_nan => raise ValueError
  | S754_finite s m e =>
      let a := match e with
               | Zneg p => Z.shiftr (Zpos m) (Zpos p)
               | _ => Z.shiftl (Zpos m) e
               end in
      ret (if s then - a else a)
  end.

End F64.

(** ** Probing *)

Definition nl : ascii := ascii_of_nat 10.

(** [s.split(sep)] for a one-character separator. *)
Fixpoint split (sep : ascii) (s : string) : list string :=
  match s with
  | EmptyString => [EmptyString]
  | String c s' =>
      if Ascii.eqb c sep then EmptyString :: split sep s'
      else match split sep s' with
           | x :: l => String c x :: l
           | [] => [String c EmptyString]
           end
  end.

(** [s.split(sep, 1)] when [sep in s]: the text before and after the first
    separator; [None] when [s] has no separator. *)
Fixpoint split_once (sep : ascii) (s : string) : option (string * string) :=
  match s with
  | EmptyString => None
  | String c s' =>
      if Ascii.eqb c sep then Some (EmptyString, s')
      else match split_once sep s' with
           | Some (k, v) => Some (String c k, v)
           | None => None
           end
  end.

Definition probe_cmd (ffprobe filepath : string) : list string :=
  [ffprobe;
   "-v"; "error";
   "-select_streams"; "v:0";
   "-show_entries"; "stream=width,height,duration,r_frame_rate,codec_name";
   "-show_entries"; "format=duration,size,bit_rate";
   "-of"; "default=noprint_wrappers=1";
   filepath].

(** The loop of [get_info] over the lines of the probe's output. *)
Definition parse_info (stdout : string) : gmap string string :=
  fold_left
    (fun info line =>
       match split_once "=" line with
       | Some (k, v) => <[k := v]> info
       | None => info
       end)
    (split nl stdout) ∅.

(** [MediaConverter.get_info]. *)
Definition get_info (h : Host) (filepath : string) : M (gmap string string) :=
  match ffprobe_path h with
  | Some ffprobe =>
      if String.eqb ffprobe "" then ret ∅
      else
        let cmd := probe_cmd ffprobe filepath in
        emit (Probe cmd) ;;;
        catch (stdout <- lift OSError (run_probe h cmd) ;;
               ret (parse_info stdout))
              (ret ∅)
  | None => ret ∅
  end.

(** ** Output paths and size-targeted compression *)

(** [MediaConverter._get_output_path], for a call in which creating the
    directory succeeds: [mkdir] at line 225 can raise [OSError], which
    nothing catches, and that outcome is not modelled; the [Mkdir] event
    records the attempt.  The result is the directory text and the file
    name joined by a backslash; pathlib's own rewriting of the directory
    text (a forward slash, a trailing separator) is not modelled. *)
Definition _get_output_path (input_file suffix ext : string)
    (opts : ConvertOptions) : M string :=
  output_dir <-
    (if Py.truthy_str (output_dir opts) then
       let d := default "" (output_dir opts) in
       emit (Mkdir d) ;;; ret (Some d)
     else ret (Path.parent input_file)) ;;
  let output_name := Path.stem input_file +:+ "_" +:+ suffix +:+ "." +:+ ext in
  ret (Path.join output_dir output_name).

(** [info.get('duration', 0) or info.get('format.duration', 0)]: a string,
    or the integer default. *)
Definition duration_field (info : gmap string string) : string + Z :=
  let second :=
    match info !! "format.duration" with
    | Some s => inl s
    | None => inr 0
    end in
  match info !! "duration" with
  | Some s => if String.eqb s "" then second else inl s
  | None => second
  end.

(** The builtin [float] on that value. *)
Definition py_float (h : Host) (x : string + Z) : M spec_float :=
  match x with
  | inl s => lift ValueError (float_of_str h s)
  | inr n => F64.of_int n
  end.

(** [int(((target_size_mb * 8 * 1024 * 1024) / duration) * 0.9)]. *)
Definition target_bits_safe (target_size_mb : Z) (duration : spec_float) : M Z :=
  bytes <- F64.of_int (target_size_mb * 8 * 1024 * 1024) ;;
  let target_bits := F64.div bytes duration in
  F64.to_int (F64.mul target_bits F64.c0_9).

(** The options [compress_media] hands to [convert]. *)
Definition comp_opts (bits_safe : Z) (opts : ConvertOptions) : ConvertOptions :=
  {| width := None; height := None; fps := None; quality := None;
     bitrate := Some (Py.str (bits_safe / 1024) +:+ "k");
     audio_bitrate := Some "128k";
     codec := None;
     preset := Some "slow";
     extra_args := None;
     output_dir := output_dir opts |}.

(** [MediaConverter.compress_media]; the default of 50 for [target_size_mb]
    is filled in by the caller. *)
Definition compress_media (h : Host) (input_file : string)
    (target_size_mb : Z) (opts : option ConvertOptions) : M bool :=
  let opts := default default_options opts in
  info <- get_info h input_file ;;
  if bool_decide (info = ∅) then
    emit (Report NoInfo) ;;; ret false
  else
    duration <- py_float h (duration_field info) ;;
    if F64.eqb duration F64.zero then
      emit (Report NoDuration) ;;; ret false
    else
      bits_safe <- target_bits_safe target_size_mb duration ;;
      output <- _get_output_path input_file "compressed" "mp4" opts ;;
      let comp := comp_opts bits_safe opts in
      emit (Report (TargetSize target_size_mb)) ;;;
      emit (Report (ComputedBitrate (bitrate comp))) ;;;
      convert h input_file output (Some comp).

(** * Specification-side vocabulary *)

(** [clamp lo hi x]: [x] forced into the interval from [lo] to [hi]. *)
Definition clamp (lo hi x : Z) : Z :=
  if x <? lo then lo else if hi <? x then hi else x.

(** A filter list as command-line arguments: nothing for an empty list,
    otherwise one [-vf] flag with the comma-joined chain. *)
Definition vf_args (filters : list string) : list string :=
  match filters with
  | [] => []
  | _ :: _ => ["-vf"; Py.join "," filters]
  end.

(** The frame-rate filter of [_build_filter]. *)
Definition fps_filters (o : ConvertOptions) : list string :=
  if Py.truthy_int (fps o) then ["fps=" +:+ Py.str (default 0 (fps o))] else [].

(** The quality arguments of an image target, in the spec's words: the
    value is clamped to [2,31] for JPEG, divided by 3 and clamped to [0,9]
    for PNG, clamped to [1,100] for WebP; an absent quality counts as 2. *)
Definition image_quality_args (ext : string) (quality : option Z) : list string :=
  let q := default 2 quality in
  if bool_decide (ext = ".jpg" ∨ ext = ".jpeg") then ["-q:v"; Py.str (clamp 2 31 q)]
  else if bool_decide (ext = ".png") then ["-compression_level"; Py.str (clamp 0 9 (q / 3))]
  else if bool_decide (ext = ".webp") then ["-q:v"; Py.str (clamp 1 100 q)]
  else [].

(** The filters of an image target: the scale filter when a dimension is
    set, the pixel-format filter for JPEG. *)
Definition image_filters (ext : string) (o : ConvertOptions) : list string :=
  (if (Py.truthy_int (width o) || Py.truthy_int (height o))%bool
   then ["scale=" +:+ Py.str (Py.or_int (width o) (-1)) +:+ ":" +:+
         Py.str (Py.or_int (height o) (-1)) +:+ ":flags=lanczos"]
   else []) ++
  (if bool_decide (ext = ".jpg" ∨ ext = ".jpeg") then ["format=yuvj420p"] else []).

(** Replacing the two dimensions of an options record. *)
Definition with_size (o : ConvertOptions) (w h : option Z) : ConvertOptions :=
  mkOptions w h (fps o) (quality o) (bitrate o) (audio_bitrate o) (codec o)
            (preset o) (extra_args o) (output_dir o).

(** Every character of [s] satisfies [p]. *)
Fixpoint all_chars (p : ascii -> bool) (s : string) : bool :=
  match s with
  | EmptyString => true
  | String c s' => (p c && all_chars p s')%bool
  end.

(** The characters [str] produces: decimal digits and the minus sign. *)
Definition is_digit (c : ascii) : bool :=
  (Nat.leb 48 (nat_of_ascii c) && Nat.leb (nat_of_ascii c) 57)%bool.

Definition is_numeral (c : ascii) : bool :=
  (is_digit c || Ascii.eqb c "-")%bool.

Definition no_colon (c : ascii) : bool := negb (Ascii.eqb c ":").

(** The scale filter of [_build_filter]: both axes after their default. *)
Definition scale_filters (o : ConvertOptions) : list string :=
  if (Py.truthy_int (width o) || Py.truthy_int (height o))%bool
  then ["scale=" +:+ Py.str (Py.or_int (width o) (-1)) +:+ ":" +:+
        Py.str (Py.or_int (height o) (-1))]
  else [].

(** The builders emit flag/value pairs (and a final lone [-y]), so the flags
    of an argument list are its tokens at even positions. *)
Fixpoint flags (args : list string) : list string :=
  match args with
  | f :: _ :: rest => f :: flags rest
  | _ => args
  end.

(** [f] is one of the flags of [args]. *)
Definition has_flag (f : string) (args : list string) : bool :=
  existsb (String.eqb f) (flags args).

(** The GIF branch of [_build_video_opts] is taken when no codec is given
    and the extension is [.gif]. *)
Definition gif_path (ext : string) (o : ConvertOptions) : bool :=
  (negb (Py.truthy_str (codec o)) && String.eqb (Py.lower ext) ".gif")%bool.

(** [x is not None]. *)
Definition is_some {A} (x : option A) : bool :=
  match x with Some _ => true | None => false end.

(** The four groups [_build_video_opts] appends after the filter, outside
    the GIF branch: the codec (the override, else the table entry, else
    nothing), the rate control ([-crf] for a given quality, else [-b:v] for
    a non-empty bitrate, else nothing), the preset and the audio codec with
    its bitrate (192k unless given). *)
Definition codec_args (ext : string) (o : ConvertOptions) : list string :=
  if Py.truthy_str (codec o) then ["-c:v"; default "" (codec o)]
  else match codec_map !! Py.lower ext with
       | Some c => ["-c:v"; c]
       | None => []
       end.

Definition rate_args (o : ConvertOptions) : list string :=
  match quality o with
  | Some q => ["-crf"; Py.str q]
  | None => if Py.truthy_str (bitrate o) then ["-b:v"; default "" (bitrate o)] else []
  end.

Definition preset_args (o : ConvertOptions) : list string :=
  if Py.truthy_str (preset o) then ["-preset"; default "" (preset o)] else [].

Definition audio_args (o : ConvertOptions) : list string :=
  ["-c:a"; "aac"; "-b:a";
   if Py.truthy_str (audio_bitrate o) then default "" (audio_bitrate o) else "192k"].

(** The probe gave nothing to compute a bitrate from: no entry at all, no
    duration entry, or a duration that reads as zero. *)
Definition duration_unavailable (h : Host) (info : gmap string string) : Prop :=
  info = ∅ \/
  duration_field info = inr 0 \/
  exists s d, duration_field info = inl s /\ float_of_str h s = Some d /\
              F64.eqb d F64.zero = true.

(** The path computed by [_get_output_path], apart from the directory it
    creates. *)
Definition output_path (input_file suffix ext : string) (o : ConvertOptions) : string :=
  Path.join
    (if Py.truthy_str (output_dir o) then Some (default "" (output_dir o))
     else Path.parent input_file)
    (Path.stem input_file +:+ "_" +:+ suffix +:+ "." +:+ ext).

(** The safe bit count as the spec words it: the total bitrate, less a
    share of [audio_bps] bits per second reserved for audio, times 0.9. *)
Definition spec_bits_safe (audio_bps target_size_mb : Z) (duration : spec_float)
  : M Z :=
  bytes <- F64.of_int (target_size_mb * 8 * 1024 * 1024) ;;
  audio <- F64.of_int audio_bps ;;
  F64.to_int (F64.mul (F64.sub (F64.div bytes duration) audio) F64.c0_9).

(** A host whose probe reports a duration of 100 seconds and whose engine
    succeeds. *)
Definition host_100s : Host :=
  {| ffmpeg_path := Some "ffmpeg.exe";
     ffprobe_path := Some "ffprobe.exe";
     path_exists := fun _ => true;
     float_of_str :=
       fun s => if String.eqb s "100.000000" then Some (F64.of_Z 100) else None;
     run_probe := fun _ => Some ("duration=100.000000" +:+ String nl "size=73400320");
     run_engine := fun _ => Some (mkRun 0 (Some 52000000)) |}.

(** * Further code of [converter.py] *)

(** ** String methods *)

Module PyStr.

(** The ASCII characters [str.strip] removes: tab to carriage return, the
    four separators 28 to 31, and the space. *)
Definition isspace (c : ascii) : bool :=
  let n := nat_of_ascii c in
  ((Nat.leb 9 n && Nat.leb n 13) || (Nat.leb 28 n && Nat.leb n 32))%bool.

Definition quote : ascii := ascii_of_nat 34.

Fixpoint lstrip (p : ascii -> bool) (s : string) : string :=
  match s with
  | EmptyString => EmptyString
  | String c s' => if p c then lstrip p s' else s
  end.

Fixpoint rstrip (p : ascii -> bool) (s : string) : string :=
  match s with
  | EmptyString => EmptyString
  | String c s' =>
      match rstrip p s' with
      | EmptyString => if p c then EmptyString else String c EmptyString
      | r => String c r
      end
  end.

(** [s.strip()], and [s.strip(q)] for the double-quote character. *)
Definition strip (s : string) : string := rstrip isspace (lstrip isspace s).
Definition strip_quotes (s : string) : string :=
  rstrip (Ascii.eqb quote) (lstrip (Ascii.eqb quote) s).

(** [s.isdigit()] on ASCII text: non-empty and made of decimal digits. *)
Definition isdigit (s : string) : bool :=
  match s with
  | EmptyString => false
  | String _ _ => all_chars is_digit s
  end.

(** [int(s)] for a text of decimal digits (the interpreter's limit on the
    length of such a text is left out). *)
Definition digit_value (c : ascii) : Z := Z.of_nat (nat_of_ascii c) - 48.

Fixpoint int_from (acc : Z) (s : string) : Z :=
  match s with
  | EmptyString => acc
  | String c s' => int_from (acc * 10 + digit_value c) s'
  end.

Definition int (s : string) : Z := int_from 0 s.

(** [needle in hay]. *)
Fixpoint contains (needle hay : string) : bool :=
  (String.prefix needle hay ||
   match hay with
   | EmptyString => false
   | String _ hay' => contains needle hay'
   end)%bool.

End PyStr.

(** ** [parse_size] *)

(** The longest prefix of decimal digits, and what follows it. *)
Fixpoint span_digits (s : string) : string * string :=
  match s with
  | EmptyString => (EmptyString, EmptyString)
  | String c s' =>
      if is_digit c then
        let '(a, r) := span_digits s' in (String c a, r)
      else (EmptyString, s)
  end.

(** [re.match(r'(\d+)[xX](\d+)', s)]: the two groups, when the text starts
    with digits, an [x] or [X], and digits again. Both groups are greedy,
    and the first has to stop at the letter. *)
Definition match_size (s : string) : option (string * string) :=
  let '(a, r) := span_digits s in
  match a, r with
  | String _ _, String c r' =>
      if (Ascii.eqb c "x" || Ascii.eqb c "X")%bool then
        let '(b, _) := span_digits r' in
        match b with
        | String _ _ => Some (a, b)
        | EmptyString => None
        end
      else None
  | _, _ => None
  end.

Definition parse_size (size_str : string) : option Z * option Z :=
  if String.eqb size_str "" then (None, None)
  else
    match match_size size_str with
    | Some (a, b) => (Some (PyStr.int a), Some (PyStr.int b))
    | None =>
        if String.eqb (Py.lower size_str) "1080p" then (Some 1920, Some 1080)
        else if String.eqb (Py.lower size_str) "720p" then (Some 1280, Some 720)
        else if String.eqb (Py.lower size_str) "480p" then (Some 854, Some 480)
        else if PyStr.isdigit size_str then (Some (PyStr.int size_str), None)
        else (None, None)
    end.

(** ** One-click conversions *)

Definition set_output_dir (o : ConvertOptions) (d : option string) : ConvertOptions :=
  mkOptions (width o) (height o) (fps o) (quality o) (bitrate o) (audio_bitrate o)
            (codec o) (preset o) (extra_args o) d.

Definition set_quality (o : ConvertOptions) (q : option Z) : ConvertOptions :=
  mkOptions (width o) (height o) (fps o) q (bitrate o) (audio_bitrate o)
            (codec o) (preset o) (extra_args o) (output_dir o).

Definition set_preset (o : ConvertOptions) (p : option string) : ConvertOptions :=
  mkOptions (width o) (height o) (fps o) (quality o) (bitrate o) (audio_bitrate o)
            (codec o) p (extra_args o) (output_dir o).

(** The [presets] table of [quick_video_convert]. *)
Definition video_presets : gmap string ConvertOptions :=
  list_to_map
    [("mp4", set_preset (set_quality default_options (Some 23)) (Some "medium"));
     ("avi", mkOptions None None None None None None (Some "libxvid") None None None);
     ("mkv", default_options);
     ("mov", set_quality default_options (Some 23));
     ("wmv", default_options);
     ("webm", set_quality default_options (Some 28))].

(** [MediaConverter.quick_video_convert]. *)
Definition quick_video_convert (h : Host) (input_file target_format : string)
    (opts : option ConvertOptions) : M bool :=
  let opts := default default_options opts in
  output <- _get_output_path input_file "converted" target_format opts ;;
  let default_opts := default default_options (video_presets !! target_format) in
  let default_opts := set_output_dir default_opts (output_dir opts) in
  let default_opts :=
    if Py.truthy_int (quality opts) then set_quality default_opts (quality opts)
    else default_opts in
  let default_opts :=
    if Py.truthy_str (preset opts) then set_preset default_opts (preset opts)
    else default_opts in
  convert h input_file output (Some default_opts).

(** The [quality_map] table of [quick_image_convert]; [bmp] and [gif] are
    present with the value [None]. *)
Definition quality_map : gmap string (option Z) :=
  list_to_map
    [("jpg", Some 2); ("jpeg", Some 2); ("png", Some 2); ("webp", Some 85);
     ("bmp", None); ("gif", None)].

(** [MediaConverter.quick_image_convert]. *)
Definition quick_image_convert (h : Host) (input_file target_format : string)
    (opts : option ConvertOptions) : M bool :=
  let opts := default default_options opts in
  output <- _get_output_path input_file "converted" target_format opts ;;
  let default_opts :=
    set_quality default_options (default (Some 2) (quality_map !! target_format)) in
  let default_opts := set_output_dir default_opts (output_dir opts) in
  convert h input_file output (Some default_opts).

(** ** Locating the executables *)

(** What [__init__] and the lookup functions see of the system: the two
    directories, [Path.exists], and [subprocess.run] with its exit status
    and standard output ([None] when the call raises or times out). *)
Record Sys : Type := mkSys {
  base_dir : string;
  app_dir : string;
  sys_exists : string -> bool;
  sys_run : list string -> option (Z * string)
}.

(** [MediaConverter._verify]. *)
Definition _verify (sys : Sys) (path : string) : bool :=
  match sys_run sys [path; "-version"] with
  | Some (rc, stdout) => ((rc =? 0) && PyStr.contains "version" stdout)%bool
  | None => false
  end.

(** The candidate paths of [_find_ffmpeg], in the order they are tried. *)
Definition ffmpeg_candidates (sys : Sys) : list string :=
  [Path.join (Some (base_dir sys)) "ffmpeg.exe";
   Path.join (Some (Path.join (Some (base_dir sys)) "ffmpeg")) "ffmpeg.exe";
   Path.join (Some (app_dir sys)) "ffmpeg.exe";
   Path.join (Some (Path.join (Some (app_dir sys)) "ffmpeg")) "ffmpeg.exe"].

(** [MediaConverter._find_ffmpeg]. *)
Definition _find_ffmpeg (sys : Sys) : option string :=
  match find (fun p => (sys_exists sys p && _verify sys p)%bool)
             (ffmpeg_candidates sys) with
  | Some p => Some p
  | None =>
      match sys_run sys ["where"; "ffmpeg"] with
      | Some (rc, stdout) =>
          if rc =? 0 then
            let path := hd EmptyString (split nl (PyStr.strip stdout)) in
            if _verify sys path then Some path else None
          else None
      | None => None
      end
  end.

(** [MediaConverter._find_ffprobe], [ffmpeg] being [self.ffmpeg_path]. *)
Definition _find_ffprobe (sys : Sys) (ffmpeg : string) : option string :=
  let probe := Path.join (Path.parent ffmpeg) "ffprobe.exe" in
  if sys_exists sys probe then Some probe else None.

(** The two paths [__init__] stores. *)
Definition init_paths (sys : Sys) : option string * option string :=
  let ffmpeg := _find_ffmpeg sys in
  (ffmpeg,
   match ffmpeg with
   | Some p => if String.eqb p "" then None else _find_ffprobe sys p
   | None => None
   end).

(** ** Prompts *)

(** What the prompts see of the file system besides [os.path.exists]:
    [os.path.isdir], and whether [mkdir] succeeds. *)
Record Dirs : Type := mkDirs {
  is_dir : string -> bool;
  mkdir_ok : string -> bool
}.

(** A prompt reads from the lines still to be typed; [None] is the end of
    the input ([EOFError]). *)
Definition Console (A : Type) : Type :=
  list string -> list event * option (A * list string).

Definition input : Console string :=
  fun lines =>
    match lines with
    | [] => ([], None)
    | l :: rest => ([], Some (l, rest))
    end.

Definition cret {A} (a : A) : Console A := fun lines => ([], Some (a, lines)).

Definition cbind {A B} (m : Console A) (k : A -> Console B) : Console B :=
  fun lines =>
    match m lines with
    | (t, None) => (t, None)
    | (t, Some (a, rest)) => let '(t', r) := k a rest in (t ++ t', r)
    end.

Definition cemit (e : event) : Console unit := fun lines => ([e], Some (tt, lines)).

(** [get_file]. *)
Definition get_file (h : Host) : Console (option string) :=
  cbind input (fun l =>
  let f := PyStr.strip_quotes (PyStr.strip l) in
  cret (if path_exists h f then Some f else None)).

(** [get_output_dir]. *)
Definition get_output_dir (d : Dirs) : Console (option string) :=
  cbind input (fun l =>
  let choice := PyStr.strip l in
  if String.eqb choice "2" then
    cbind input (fun l =>
    let dir := PyStr.strip_quotes (PyStr.strip l) in
    if (negb (String.eqb dir "") && is_dir d dir)%bool then cret (Some dir)
    else if negb (String.eqb dir "") then
      cbind (cemit (Mkdir dir)) (fun _ =>
      if mkdir_ok d dir then cret (Some dir) else cret None)
    else cret None)
  else cret None).

(** [advanced_options]. *)
Definition advanced_options (d : Dirs) : Console ConvertOptions :=
  let opts := default_options in
  cbind (get_output_dir d) (fun dir =>
  let opts := set_output_dir opts dir in
  cbind input (fun l =>
  let size := PyStr.strip l in
  let opts :=
    if String.eqb size "" then opts
    else let '(w, h) := parse_size size in with_size opts w h in
  cbind input (fun l =>
  let q := PyStr.strip l in
  let opts := if PyStr.isdigit q then set_quality opts (Some (PyStr.int q)) else opts in
  cbind input (fun l =>
  let f := PyStr.strip l in
  let opts :=
    if PyStr.isdigit f
    then mkOptions (width opts) (height opts) (Some (PyStr.int f)) (quality opts)
                   (bitrate opts) (audio_bitrate opts) (codec opts) (preset opts)
                   (extra_args opts) (output_dir opts)
    else opts in
  cbind input (fun l =>
  let br := PyStr.strip l in
  let opts :=
    if String.eqb br "" then opts
    else mkOptions (width opts) (height opts) (fps opts) (quality opts)
                   (Some br) (audio_bitrate opts) (codec opts) (preset opts)
                   (extra_args opts) (output_dir opts) in
  cbind input (fun l =>
  let pr := PyStr.strip l in
  let opts := if String.eqb pr "" then opts else set_preset opts (Some pr) in
  cret opts)))))).

(** ** Vocabulary for the further properties *)

(** The event is a start of the engine. *)
Definition is_engine (e : event) : bool :=
  match e with Engine _ => true | _ => false end.

(** The key of a line of probe output: the text before its first [=]. *)
Definition line_key (line : string) : option string :=
  match split_once "=" line with
  | Some (k, _) => Some k
  | None => None
  end.

(** What counts of an optional number or text where the code tests its
    truth value: nothing for 0 and for the empty text. *)
Definition effective_int (x : option Z) : option Z :=
  if Py.truthy_int x then x else None.

Definition effective_str (x : option string) : option string :=
  if Py.truthy_str x then x else None.

(** The first of two optional values that is present. *)
Definition first_of {A} (x y : option A) : option A :=
  match x with Some _ => x | None => y end.

(** The image arguments of the one-click image formats: quality 2 for
    JPEG (with its pixel format filter), compression level 0 for PNG,
    quality 85 for WebP, nothing for BMP. *)
Definition quick_image_args (target_format : string) : list string :=
  if bool_decide (target_format = "jpg" ∨ target_format = "jpeg")
  then ["-q:v"; "2"; "-vf"; "format=yuvj420p"]
  else if bool_decide (target_format = "png") then ["-compression_level"; "0"]
  else if bool_decide (target_format = "webp") then ["-q:v"; "85"]
  else [].

(** The options [quick_video_convert] converts with: the preset of the
    format, the caller's non-zero quality and non-empty preset taking
    priority over the preset's, and the caller's output directory. *)
Definition quick_video_options (target_format : string) (u : ConvertOptions)
  : ConvertOptions :=
  let p := default default_options (video_presets !! target_format) in
  mkOptions (width p) (height p) (fps p)
            (first_of (effective_int (quality u)) (quality p))
            (bitrate p) (audio_bitrate p) (codec p)
            (first_of (effective_str (preset u)) (preset p))
            (extra_args p) (output_dir u).

(** The text is empty or starts with a character outside [p]. *)
Definition head_outside (p : ascii -> bool) (s : string) : Prop :=
  match s with
  | EmptyString => True
  | String c _ => p c = false
  end.

(** * Properties *)

(** ** Sanity checks *)

Example build_filter_both :
  _build_filter (mkOptions (Some 1280) (Some 720) (Some 30) None None None None None None None)
  = ["-vf"; "scale=1280:720,fps=30"].
Proof. by vm_compute. Qed.

Example build_video_mp4 :
  _build_video_opts ".MP4"
    (mkOptions None None None (Some 23) (Some "2M") None None (Some "medium") None None)
  = ["-c:v"; "libx264"; "-crf"; "23"; "-preset"; "medium"; "-c:a"; "aac"; "-b:a"; "192k"].
Proof. by vm_compute. Qed.

Example build_video_unknown_ext :
  _build_video_opts ".ts"
    (mkOptions None None None None (Some "5000k") (Some "96k") None None (Some ["-an"]) None)
  = ["-b:v"; "5000k"; "-c:a"; "aac"; "-b:a"; "96k"; "-an"].
Proof. by vm_compute. Qed.

Example build_image_png :
  _build_image_opts ".png"
    (mkOptions None (Some 600) None (Some 200) None None None None None None)
  = ["-compression_level"; "9"; "-vf"; "scale=-1:600:flags=lanczos"; "-y"].
Proof. by vm_compute. Qed.

Example build_image_webp_negative :
  _build_image_opts ".webp"
    (mkOptions None None None (Some (-7)) None None None None None None)
  = ["-q:v"; "1"; "-y"].
Proof. by vm_compute. Qed.

Example suffix_examples :
  Path.suffix "C:\clips\a.b.MP4" = ".MP4" /\ Path.suffix "dir.d/readme" = "" /\
  Path.suffix ".hidden" = "" /\ Path.suffix "name." = "" /\
  Path.stem "C:\clips\a.b.MP4" = "a.b" /\ Path.parent "C:\clips\a.b.MP4" = Some "C:\clips".
Proof. by vm_compute. Qed.

Example parse_info_example :
  let info := parse_info ("width=1920" +:+ String nl "codec_name=h264" +:+ String nl
                          "noise" +:+ String nl "duration=12.5" +:+ String nl "TAG=a=b") in
  info !! "width" = Some "1920" /\ info !! "duration" = Some "12.5" /\
  info !! "TAG" = Some "a=b" /\ info !! "noise" = None /\
  duration_field info = inl "12.5".
Proof. vm_compute. repeat split; reflexivity. Qed.

(** The literal [0.9] is nine tenths rounded to binary64, and [int]
    truncates towards zero. *)
Example float_examples :
  F64.div (F64.of_Z 9) (F64.of_Z 10) = F64.c0_9 /\
  F64.to_int (F64.div (F64.of_Z 7) (F64.of_Z 2)) = ret 3 /\
  F64.to_int (F64.div (F64.of_Z (-7)) (F64.of_Z 2)) = ret (-3) /\
  F64.to_int (F64.mul (F64.of_Z 4194304) F64.c0_9) = ret 3774873.
Proof. by vm_compute. Qed.

(** ** Helper lemmas *)

Lemma clamp_min_max lo hi x : lo <= hi -> Z.min (Z.max x lo) hi = clamp lo hi x.
Proof.
  intros Hle. unfold clamp.
  destruct (Z.ltb_spec x lo), (Z.ltb_spec hi x); lia.
Qed.

Lemma clamp_range lo hi x : lo <= hi -> lo <= clamp lo hi x <= hi.
Proof.
  intros Hle. unfold clamp.
  destruct (Z.ltb_spec x lo), (Z.ltb_spec hi x); lia.
Qed.

Lemma eqb_decide (s t : string) : String.eqb s t = bool_decide (s = t).
Proof.
  destruct (String.eqb_spec s t) as [->|Hne].
  - by rewrite bool_decide_eq_true_2.
  - by rewrite bool_decide_eq_false_2.
Qed.

(** The image builder, cut into its three parts. *)
Lemma build_image_opts_shape (ext : string) (o : ConvertOptions) :
  _build_image_opts ext o
  = image_quality_args (Py.lower ext) (quality o)
    ++ vf_args (image_filters (Py.lower ext) o) ++ ["-y"].
Proof.
  unfold _build_image_opts, image_quality_args, image_filters.
  rewrite !eqb_decide, !clamp_min_max by lia.
  set (e := Py.lower ext).
  destruct (Py.truthy_int (width o) || Py.truthy_int (height o))%bool;
    destruct (decide (e = ".jpg")) as [->|Hj]; try reflexivity;
    destruct (decide (e = ".jpeg")) as [->|Hj']; try reflexivity;
    rewrite (bool_decide_eq_false_2 (e = ".jpg")), (bool_decide_eq_false_2 (e = ".jpeg")) by done;
    rewrite (bool_decide_eq_false_2 (_ ∨ _)) by tauto; cbn [orb];
    destruct (bool_decide (e = ".png")); try reflexivity;
    destruct (bool_decide (e = ".webp")); reflexivity.
Qed.

(** *** Characters of [str(n)] *)

Lemma app_nil_l_str (t : string) : "" +:+ t = t.
Proof. reflexivity. Qed.

Lemma app_cons_str (c : ascii) (s t : string) :
  String c s +:+ t = String c (s +:+ t).
Proof. reflexivity. Qed.

Lemma all_chars_app p s t :
  all_chars p (s +:+ t) = (all_chars p s && all_chars p t)%bool.
Proof.
  induction s as [|c s IH]; [reflexivity|].
  rewrite app_cons_str. simpl. rewrite IH. apply andb_assoc.
Qed.

Lemma all_chars_mono (p q : ascii -> bool) s :
  (forall c, p c = true -> q c = true) ->
  all_chars p s = true -> all_chars q s = true.
Proof.
  intros Hpq. induction s as [|c s IH]; [done|]. simpl.
  intros [Hc Hs]%andb_prop. by rewrite (Hpq _ Hc), IH.
Qed.

Lemma pretty_N_go_digits (x : N) (s : string) :
  all_chars is_digit s = true -> all_chars is_digit (pretty_N_go x s) = true.
Proof.
  revert s. induction (N.lt_wf_0 x) as [x _ IH]. intros s Hs.
  destruct (decide (x = 0)%N) as [->|Hx].
  - by rewrite pretty_N_go_0.
  - rewrite pretty_N_go_step by lia. apply IH.
    + apply N.div_lt; lia.
    + simpl. rewrite Hs. unfold pretty_N_char.
      by repeat case_match.
Qed.

Lemma pretty_N_digits (x : N) : all_chars is_digit (pretty x) = true.
Proof.
  unfold pretty, pretty_N. case_decide; [reflexivity|].
  by apply pretty_N_go_digits.
Qed.

Lemma str_numeral (z : Z) : all_chars is_numeral (Py.str z) = true.
Proof.
  assert (Hd : forall c, is_digit c = true -> is_numeral c = true).
  { intros c Hc. unfold is_numeral. by rewrite Hc. }
  unfold Py.str, pretty, pretty_Z. destruct z as [|p|p].
  - reflexivity.
  - apply (all_chars_mono is_digit); [done|]. apply pretty_N_digits.
  - rewrite app_cons_str, app_nil_l_str. simpl.
    apply (all_chars_mono is_digit); [done|]. apply pretty_N_digits.
Qed.

Lemma str_inj (a b : Z) : Py.str a = Py.str b -> a = b.
Proof. apply pretty_Z_inj. Qed.

(** A numeral is never one of the builder's flags or filters. *)
Lemma str_not_literal (z : Z) (s : string) :
  all_chars is_numeral s = false -> Py.str z <> s.
Proof. intros Hs <-. by rewrite str_numeral in Hs. Qed.

(** *** Cancellation for string concatenation *)

Lemma length_app_str (s t : string) :
  String.length (s +:+ t) = (String.length s + String.length t)%nat.
Proof.
  induction s as [|c s IH]; [reflexivity|].
  rewrite app_cons_str. simpl. by rewrite IH.
Qed.

Lemma app_inv_tail_str (s1 s2 t : string) : s1 +:+ t = s2 +:+ t -> s1 = s2.
Proof.
  revert s2. induction s1 as [|c s1 IH]; intros [|c' s2] H.
  - done.
  - apply (f_equal String.length) in H.
    rewrite app_nil_l_str, app_cons_str in H. simpl in H.
    rewrite length_app_str in H. lia.
  - apply (f_equal String.length) in H.
    rewrite app_nil_l_str, app_cons_str in H. simpl in H.
    rewrite length_app_str in H. lia.
  - rewrite !app_cons_str in H. injection H as -> H. f_equal. by apply IH.
Qed.

Lemma app_nil_r_str (s : string) : s +:+ "" = s.
Proof.
  induction s as [|c s IH]; [reflexivity|].
  by rewrite app_cons_str, IH.
Qed.

(** Two texts cut at their first colon agree part by part. *)
Lemma app_colon_inj (a a' b b' : string) :
  all_chars no_colon a = true -> all_chars no_colon a' = true ->
  a +:+ ":" +:+ b = a' +:+ ":" +:+ b' -> a = a' /\ b = b'.
Proof.
  revert a'. induction a as [|c a IH]; intros [|c' a'] Ha Ha' H;
    rewrite ?app_cons_str, ?app_nil_l_str in H.
  - by injection H as ->.
  - injection H as <- _. simpl in Ha'. discriminate.
  - injection H as -> _. simpl in Ha. discriminate.
  - injection H as -> H. simpl in Ha, Ha'.
    apply andb_prop in Ha as [_ Ha]. apply andb_prop in Ha' as [_ Ha'].
    destruct (IH a' Ha Ha' H) as [-> ->]. done.
Qed.

Lemma str_no_colon (z : Z) : all_chars no_colon (Py.str z) = true.
Proof.
  apply (all_chars_mono is_numeral); [|apply str_numeral].
  intros c. unfold is_numeral, is_digit, no_colon.
  destruct (Ascii.eqb_spec c ":") as [->|]; [by vm_compute|done].
Qed.

(** *** The filter builder *)

Lemma build_filter_shape (o : ConvertOptions) :
  _build_filter o = vf_args (scale_filters o ++ fps_filters o).
Proof.
  unfold _build_filter, scale_filters, fps_filters.
  destruct (Py.truthy_int (width o) || Py.truthy_int (height o))%bool;
    [destruct (Z.eqb_spec (Py.or_int (width o) (-1)) (-1)) as [->|Hw];
       [|destruct (Z.eqb_spec (Py.or_int (height o) (-1)) (-1)) as [->|Hh]]|];
    destruct (fps o) as [f|]; cbn [Py.truthy_int default]; try reflexivity;
    destruct (f =? 0); reflexivity.
Qed.

Lemma codec_map_gif : codec_map !! ".gif" = Some "gif".
Proof. by vm_compute. Qed.

(** *** The video builder, piece by piece *)

Lemma build_video_opts_shape (ext : string) (o : ConvertOptions) :
  _build_video_opts ext o
  = _build_filter o ++
    (if gif_path ext o then ["-vf"; gif_filter o; "-loop"; "0"]
     else codec_args ext o ++ rate_args o ++ preset_args o ++ audio_args o
          ++ default [] (extra_args o)).
Proof.
  unfold _build_video_opts, gif_path, codec_args, rate_args, preset_args, audio_args.
  generalize (_build_filter o). intros args.
  destruct (Py.truthy_str (codec o)); cbn [negb andb];
    [|destruct (codec_map !! Py.lower ext) as [c|] eqn:Hc;
      destruct (String.eqb_spec (Py.lower ext) ".gif") as [Hg|Hg];
      [reflexivity| |rewrite Hg, codec_map_gif in Hc; discriminate|]];
    destruct (extra_args o) as [[|x l]|]; destruct (quality o) as [q|];
    destruct (Py.truthy_str (bitrate o)); destruct (Py.truthy_str (preset o));
    destruct (Py.truthy_str (audio_bitrate o)); cbn [default];
    rewrite <- ?app_assoc, ?app_nil_r; reflexivity.
Qed.

(** A leading filter pair keeps the flag positions of what follows. *)
Lemma has_flag_vf_args (g : string) (fs l : list string) :
  has_flag g (vf_args fs ++ l)
  = (match fs with [] => false | _ => String.eqb g "-vf" end || has_flag g l)%bool.
Proof. destruct fs; reflexivity. Qed.

(** ** Claims *)

(** C5. Image quality mapping: for a [.jpg]/[.jpeg] target the builder
    emits [-q:v] with the quality clamped into [2,31]; for [.png] it emits
    [-compression_level] with the quality divided by 3 (integer division)
    and clamped into [0,9]; for [.webp] it emits [-q:v] with the quality
    clamped into [1,100]. An absent quality counts as 2. In particular
    quality 0 gives 2 for JPEG and quality 200 gives 31, 9 and 100. *)
Theorem image_quality_mapping (ext : string) (o : ConvertOptions) :
  let e := Py.lower ext in
  let q := default 2 (quality o) in
  let rest := vf_args (image_filters e o) ++ ["-y"] in
  (e = ".jpg" \/ e = ".jpeg" ->
     _build_image_opts ext o = ["-q:v"; Py.str (clamp 2 31 q)] ++ rest) /\
  (e = ".png" ->
     _build_image_opts ext o = ["-compression_level"; Py.str (clamp 0 9 (q / 3))] ++ rest) /\
  (e = ".webp" ->
     _build_image_opts ext o = ["-q:v"; Py.str (clamp 1 100 q)] ++ rest) /\
  (quality o = None -> q = 2) /\
  (2 <= clamp 2 31 q <= 31 /\ 0 <= clamp 0 9 (q / 3) <= 9 /\ 1 <= clamp 1 100 q <= 100) /\
  (clamp 2 31 0 = 2 /\ clamp 2 31 200 = 31 /\ clamp 0 9 (200 / 3) = 9 /\ clamp 1 100 200 = 100).
Proof.
  intros e q rest. subst rest.
  repeat split; try (apply clamp_range; lia); try reflexivity.
  - intros He. rewrite build_image_opts_shape. fold e. unfold image_quality_args.
    by rewrite bool_decide_eq_true_2.
  - intros He. rewrite build_image_opts_shape. fold e. unfold image_quality_args.
    by rewrite He.
  - intros He. rewrite build_image_opts_shape. fold e. unfold image_quality_args.
    by rewrite He.
  - intros Hq. subst q. by rewrite Hq.
Qed.

Lemma image_quality_mapping_witness :
  _build_image_opts ".JPG" (mkOptions None None None (Some 200) None None None None None None)
  = ["-q:v"; "31"; "-vf"; "format=yuvj420p"; "-y"].
Proof.
  apply (proj1 (image_quality_mapping ".JPG"
                  (mkOptions None None None (Some 200) None None None None None None))).
  left. reflexivity.
Defined.

(** C4. Quality and bitrate for video output, without [extra_args] ([None]
    or an empty list): the flags [-crf] and [-b:v] are never both emitted.
    Outside the GIF branch the list is the filter, the codec, the rate
    control, the preset and the audio arguments; [-crf] is emitted exactly
    when a quality is given (0 included), and [-b:v] exactly when no
    quality is given and the bitrate is a non-empty string. The GIF branch
    ends after its palette chain and emits neither. *)
Theorem quality_bitrate_exclusive (ext : string) (o : ConvertOptions) :
  default [] (extra_args o) = [] ->
  let args := _build_video_opts ext o in
  (has_flag "-crf" args && has_flag "-b:v" args)%bool = false /\
  (gif_path ext o = false ->
     args = _build_filter o ++ codec_args ext o ++ rate_args o
            ++ preset_args o ++ audio_args o /\
     has_flag "-crf" args = is_some (quality o) /\
     has_flag "-b:v" args = (negb (is_some (quality o)) && Py.truthy_str (bitrate o))%bool) /\
  (gif_path ext o = true ->
     args = _build_filter o ++ ["-vf"; gif_filter o; "-loop"; "0"] /\
     has_flag "-crf" args = false /\ has_flag "-b:v" args = false).
Proof.
  intros Hx args. subst args.
  rewrite build_video_opts_shape, Hx. cbn [default]. rewrite !app_nil_r.
  rewrite build_filter_shape, !has_flag_vf_args.
  destruct (gif_path ext o).
  - destruct (scale_filters o ++ fps_filters o);
      (split; [reflexivity|split; [discriminate|intros _; repeat split; reflexivity]]).
  - unfold codec_args, rate_args, preset_args, audio_args.
    destruct (scale_filters o ++ fps_filters o);
      destruct (Py.truthy_str (codec o));
      try destruct (codec_map !! Py.lower ext);
      destruct (quality o); destruct (Py.truthy_str (bitrate o));
      destruct (Py.truthy_str (preset o));
      (split; [reflexivity|split; [intros _; repeat split; reflexivity|discriminate]]).
Qed.

Lemma quality_bitrate_exclusive_witness :
  has_flag "-crf" (_build_video_opts ".mp4"
     (mkOptions None None None (Some 0) (Some "2M") None None None None None)) = true /\
  has_flag "-b:v" (_build_video_opts ".mp4"
     (mkOptions None None None (Some 0) (Some "2M") None None None None None)) = false.
Proof.
  pose proof (quality_bitrate_exclusive ".mp4"
     (mkOptions None None None (Some 0) (Some "2M") None None None None None) eq_refl) as H.
  destruct H as (_ & H & _). destruct (H eq_refl) as (_ & H1 & H2).
  split; [exact H1 | exact H2].
Defined.

(** C4, counterexample. For a GIF target the builder returns before its
    quality step: with the options of the video-to-GIF menu entry (quality
    10) the argument list holds no [-crf]. *)
Lemma gif_branch_drops_quality :
  _build_video_opts ".gif"
    (mkOptions (Some 480) None (Some 15) (Some 10) None None None None None None)
  = ["-vf"; "scale=480:-1,fps=15";
     "-vf"; "fps=15,scale=480:-1:flags=lanczos,split[s0][s1];[s0]palettegen=max_colors=128[p];[s1][p]paletteuse";
     "-loop"; "0"] /\
  count_occ string_dec
    (_build_video_opts ".gif"
       (mkOptions (Some 480) None (Some 15) (Some 10) None None None None None None))
    "-crf" = 0%nat /\
  has_flag "-crf"
    (_build_video_opts ".gif"
       (mkOptions (Some 480) None (Some 15) (Some 10) None None None None None None))
  = false.
Proof. by vm_compute. Qed.

(** C3 (what the code does). On the GIF branch with a scaling dimension
    and a frame rate set, the builder emits two [-vf] flags: the chain of
    [_build_filter] first, then the palette chain (fps, scale, split,
    palettegen, paletteuse), followed by [-loop 0]. *)
Theorem gif_emits_two_filter_flags (ext : string) (o : ConvertOptions) :
  gif_path ext o = true ->
  (Py.truthy_int (width o) || Py.truthy_int (height o))%bool = true ->
  Py.truthy_int (fps o) = true ->
  _build_video_opts ext o
  = ["-vf"; Py.join "," (scale_filters o ++ fps_filters o);
     "-vf"; gif_filter o; "-loop"; "0"] /\
  count_occ string_dec (flags (_build_video_opts ext o)) "-vf" = 2%nat.
Proof.
  intros Hg Hs Hf.
  rewrite build_video_opts_shape, build_filter_shape, Hg.
  unfold scale_filters, fps_filters. rewrite Hs, Hf. split; reflexivity.
Qed.

Lemma gif_emits_two_filter_flags_witness :
  _build_video_opts ".gif"
    (mkOptions (Some 480) None (Some 15) (Some 10) None None None None None None)
  = ["-vf"; "scale=480:-1,fps=15";
     "-vf"; "fps=15,scale=480:-1:flags=lanczos,split[s0][s1];[s0]palettegen=max_colors=128[p];[s1][p]paletteuse";
     "-loop"; "0"].
Proof.
  apply (gif_emits_two_filter_flags ".gif"
    (mkOptions (Some 480) None (Some 15) (Some 10) None None None None None None));
    reflexivity.
Defined.

(** *** Defaults of a dimension *)

Lemma or_int_set (v d : Z) : v <> 0 -> Py.or_int (Some v) d = v.
Proof. intros Hv. unfold Py.or_int. by destruct (Z.eqb_spec v 0). Qed.

Lemma or_int_unset (u : option Z) (d : Z) :
  Py.truthy_int u = false -> Py.or_int u d = d.
Proof.
  destruct u as [v|]; [|done]. simpl.
  by destruct (v =? 0).
Qed.

Lemma truthy_int_set (v : Z) : v <> 0 -> Py.truthy_int (Some v) = true.
Proof. intros Hv. simpl. by destruct (Z.eqb_spec v 0). Qed.

(** Joining a head with a fixed rest is injective in the head. *)
Lemma join_head_inj (x y : string) (rest : list string) :
  Py.join "," (x :: rest) = Py.join "," (y :: rest) -> x = y.
Proof.
  destruct rest as [|r rest]; [done|].
  unfold Py.join. simpl. apply app_inv_tail_str.
Qed.

Lemma scale_text_inj (w h w' h' : Z) (t : string) :
  "scale=" +:+ Py.str w +:+ ":" +:+ Py.str h +:+ t
  = "scale=" +:+ Py.str w' +:+ ":" +:+ Py.str h' +:+ t ->
  w = w' /\ h = h'.
Proof.
  intros H. apply (inj (String.app "scale=")) in H.
  apply app_colon_inj in H as [Hw Hh]; try apply str_no_colon.
  apply app_inv_tail_str in Hh. split; by apply str_inj.
Qed.

Lemma scale_filters_with_size (o : ConvertOptions) (a b : option Z) :
  (Py.truthy_int a || Py.truthy_int b)%bool = true ->
  scale_filters (with_size o a b)
  = ["scale=" +:+ Py.str (Py.or_int a (-1)) +:+ ":" +:+ Py.str (Py.or_int b (-1))].
Proof. intros H. unfold scale_filters. cbn [width height with_size]. by rewrite H. Qed.

Lemma image_filters_with_size (e : string) (o : ConvertOptions) (a b : option Z) :
  (Py.truthy_int a || Py.truthy_int b)%bool = true ->
  image_filters e (with_size o a b)
  = ("scale=" +:+ Py.str (Py.or_int a (-1)) +:+ ":" +:+ Py.str (Py.or_int b (-1))
       +:+ ":flags=lanczos")
    :: (if bool_decide (e = ".jpg" ∨ e = ".jpeg") then ["format=yuvj420p"] else []).
Proof. intros H. unfold image_filters. cbn [width height with_size]. by rewrite H. Qed.

(** C6. Scale filter with one dimension set (a dimension is set when it is
    a non-zero integer; [None] and 0 both count as unset). Width-only gives
    [scale=W:-1] and height-only gives [scale=-1:H], in the video filter
    and, with the [:flags=lanczos] ending, in the image filter. When
    neither value of a both-set pair is -1, its filter string differs from
    the width-only and from the height-only one. *)
Theorem scale_filter_aspect (o : ConvertOptions) (ext : string) (w h : Z) (u : option Z) :
  w <> 0 -> h <> 0 -> Py.truthy_int u = false ->
  let wide := with_size o (Some w) u in
  let tall := with_size o u (Some h) in
  let both := with_size o (Some w) (Some h) in
  let e := Py.lower ext in
  let fmt := if bool_decide (e = ".jpg" ∨ e = ".jpeg") then ["format=yuvj420p"] else [] in
  (_build_filter wide
     = ["-vf"; Py.join "," (("scale=" +:+ Py.str w +:+ ":-1") :: fps_filters o)] /\
   _build_filter tall
     = ["-vf"; Py.join "," (("scale=-1:" +:+ Py.str h) :: fps_filters o)] /\
   _build_image_opts ext wide
     = image_quality_args e (quality o)
       ++ ["-vf"; Py.join "," (("scale=" +:+ Py.str w +:+ ":-1:flags=lanczos") :: fmt); "-y"] /\
   _build_image_opts ext tall
     = image_quality_args e (quality o)
       ++ ["-vf"; Py.join "," (("scale=-1:" +:+ Py.str h +:+ ":flags=lanczos") :: fmt); "-y"]) /\
  (w <> -1 -> h <> -1 ->
   _build_filter both <> _build_filter wide /\
   _build_filter both <> _build_filter tall /\
   _build_image_opts ext both <> _build_image_opts ext wide /\
   _build_image_opts ext both <> _build_image_opts ext tall).
Proof.
  intros Hw Hh Hu wide tall both e fmt.
  assert (Hwide : (Py.truthy_int (Some w) || Py.truthy_int u)%bool = true)
    by (by rewrite truthy_int_set).
  assert (Htall : (Py.truthy_int u || Py.truthy_int (Some h))%bool = true)
    by (rewrite truthy_int_set by done; apply orb_true_r).
  assert (Hboth : (Py.truthy_int (Some w) || Py.truthy_int (Some h))%bool = true)
    by (by rewrite truthy_int_set).
  assert (Ef : forall a b,
    (Py.truthy_int a || Py.truthy_int b)%bool = true ->
    _build_filter (with_size o a b)
    = ["-vf"; Py.join "," (("scale=" +:+ Py.str (Py.or_int a (-1)) +:+ ":" +:+
                            Py.str (Py.or_int b (-1))) :: fps_filters o)]).
  { intros a b H. rewrite build_filter_shape, scale_filters_with_size by done.
    reflexivity. }
  assert (Ei : forall a b,
    (Py.truthy_int a || Py.truthy_int b)%bool = true ->
    _build_image_opts ext (with_size o a b)
    = image_quality_args e (quality o)
      ++ ["-vf"; Py.join "," (("scale=" +:+ Py.str (Py.or_int a (-1)) +:+ ":" +:+
                               Py.str (Py.or_int b (-1)) +:+ ":flags=lanczos") :: fmt);
          "-y"]).
  { intros a b H. rewrite build_image_opts_shape. fold e.
    rewrite image_filters_with_size by done. reflexivity. }
  subst wide tall both.
  rewrite !Ef, !Ei by done.
  rewrite !or_int_set, !(or_int_unset u) by done.
  split; [repeat split; reflexivity|].
  intros Hw1 Hh1. repeat split.
  - intros [= H%join_head_inj].
    cut (w = w /\ h = -1); [by intros [_ ?]|].
    apply (scale_text_inj w h w (-1) ""). rewrite !app_nil_r_str. exact H.
  - intros [= H%join_head_inj].
    cut (w = -1 /\ h = h); [by intros [? _]|].
    apply (scale_text_inj w h (-1) h ""). rewrite !app_nil_r_str. exact H.
  - intros H%app_inv_head. injection H as H%join_head_inj.
    cut (w = w /\ h = -1); [by intros [_ ?]|].
    apply (scale_text_inj w h w (-1) ":flags=lanczos"). exact H.
  - intros H%app_inv_head. injection H as H%join_head_inj.
    cut (w = -1 /\ h = h); [by intros [? _]|].
    apply (scale_text_inj w h (-1) h ":flags=lanczos"). exact H.
Qed.

Lemma scale_filter_aspect_witness :
  _build_filter (with_size default_options (Some 640) None) = ["-vf"; "scale=640:-1"] /\
  _build_filter (with_size default_options None (Some 480)) = ["-vf"; "scale=-1:480"] /\
  _build_filter (with_size default_options (Some 640) (Some 480))
    <> _build_filter (with_size default_options (Some 640) None).
Proof.
  pose proof (scale_filter_aspect default_options ".png" 640 480 None) as H.
  destruct H as [(H1 & H2 & _) H3]; [lia | lia | reflexivity |].
  split; [exact H1|]. split; [exact H2|].
  destruct H3 as (H3 & _); [lia | lia |]. exact H3.
Defined.

(** C6, counterexample. A both-set pair whose height is the marker value -1
    produces the same filter string as the width-only case. *)
Lemma scale_filter_marker_collision :
  _build_filter (with_size default_options (Some 5) (Some (-1))) = ["-vf"; "scale=5:-1"] /\
  _build_filter (with_size default_options (Some 5) None) = ["-vf"; "scale=5:-1"] /\
  _build_image_opts ".png" (with_size default_options (Some 5) (Some (-1)))
  = _build_image_opts ".png" (with_size default_options (Some 5) None).
Proof. by vm_compute. Qed.

(** *** Extension classes *)

Lemma lower_ascii_idem (c : ascii) :
  Py.lower_ascii (Py.lower_ascii c) = Py.lower_ascii c.
Proof. by destruct c as [[] [] [] [] [] [] [] []]; vm_compute. Qed.

Lemma lower_idem (s : string) : Py.lower (Py.lower s) = Py.lower s.
Proof.
  induction s as [|c s IH]; [done|]. simpl. by rewrite lower_ascii_idem, IH.
Qed.

Lemma image_ext_video (e : string) :
  is_image_ext e = true -> is_video_ext e = String.eqb e ".gif".
Proof.
  unfold is_image_ext, IMAGE_EXTS. intros H%bool_decide_eq_true.
  rewrite elem_of_list_to_set in H.
  repeat (apply elem_of_cons in H as [->|H]); try (by vm_compute).
  by apply elem_of_nil in H.
Qed.

Lemma audio_ext_class (e : string) :
  e ∈ AUDIO_EXTS -> is_video_ext e = false /\ is_image_ext e = false.
Proof.
  unfold AUDIO_EXTS. rewrite elem_of_list_to_set. intros H.
  repeat (apply elem_of_cons in H as [->|H]); try (by vm_compute).
  by apply elem_of_nil in H.
Qed.

(** A file whose extension is in one of the tables is not named like a
    flag. *)
Lemma video_file_not_flag (f : string) :
  is_video_ext (Py.lower (Path.suffix f)) = true -> f <> "-vframes".
Proof. intros H ->. vm_compute in H. discriminate. Qed.

Lemma image_file_not_flag (f : string) :
  is_image_ext (Py.lower (Path.suffix f)) = true -> f <> "-vframes".
Proof. intros H ->. vm_compute in H. discriminate. Qed.

Lemma image_vf_args_cases (e : string) (o : ConvertOptions) :
  vf_args (image_filters e o) = [] \/
  exists c s, vf_args (image_filters e o) = ["-vf"; String c s] /\ c <> "-"%char.
Proof.
  unfold image_filters.
  destruct (Py.truthy_int (width o) || Py.truthy_int (height o))%bool;
    destruct (bool_decide (e = ".jpg" ∨ e = ".jpeg"));
    first [by left | right; eexists _, _; split; [reflexivity|done]].
Qed.

Lemma image_quality_args_cases (e : string) (q : option Z) :
  image_quality_args e q = [] \/
  exists f n, image_quality_args e q = [f; Py.str n] /\ f <> "-vframes".
Proof.
  unfold image_quality_args.
  repeat case_bool_decide; first [by left | right; eexists _, _; split; [reflexivity|done]].
Qed.

Lemma count_vframes_image_opts (e : string) (o : ConvertOptions) :
  count_occ string_dec
    (image_quality_args e (quality o) ++ vf_args (image_filters e o) ++ ["-y"])
    "-vframes" = 0%nat.
Proof.
  rewrite !count_occ_app.
  destruct (image_quality_args_cases e (quality o)) as [->|(f & n & -> & Hf)];
    destruct (image_vf_args_cases e o) as [->|(c & s & -> & Hc)];
    repeat first
      [ rewrite count_occ_nil
      | rewrite count_occ_cons_neq by
          first [ done | by apply str_not_literal | by intros [= -> _] ] ];
    reflexivity.
Qed.

(** The three shapes of the command line. *)
Lemma convert_cmd_image_output (ffmpeg input_file output_file : string)
    (o : ConvertOptions) :
  is_video_ext (Py.lower (Path.suffix output_file)) = false ->
  convert_cmd ffmpeg input_file output_file o
  = [ffmpeg; "-i"; input_file]
    ++ (if is_video_ext (Py.lower (Path.suffix input_file))
        then ["-ss"; "00:00:01"; "-vframes"; "1"] else [])
    ++ _build_image_opts (Py.lower (Path.suffix output_file)) o ++ [output_file].
Proof.
  intros Ho. unfold convert_cmd. rewrite Ho.
  destruct (is_video_ext (Py.lower (Path.suffix input_file)));
    by rewrite <- ?app_assoc.
Qed.

(** C7. Video to image: when the input extension is classified as video and
    the output extension as image, other than [.gif] (which [convert] treats
    as a video output), the command seeks to [00:00:01], limits the output
    to one frame, and continues with the image-quality arguments, the image
    filters and [-y]. The arguments hold exactly one [-vframes]. *)
Theorem video_to_image_extracts_one_frame
    (ffmpeg input_file output_file : string) (o : ConvertOptions) :
  let ie := Py.lower (Path.suffix input_file) in
  let oe := Py.lower (Path.suffix output_file) in
  is_video_ext ie = true -> is_image_ext oe = true -> oe <> ".gif" ->
  convert_cmd ffmpeg input_file output_file o
  = [ffmpeg; "-i"; input_file; "-ss"; "00:00:01"; "-vframes"; "1"]
    ++ image_quality_args oe (quality o) ++ vf_args (image_filters oe o)
    ++ ["-y"; output_file] /\
  count_occ string_dec (tl (convert_cmd ffmpeg input_file output_file o)) "-vframes" = 1%nat.
Proof.
  intros ie oe Hi Ho Hgif.
  assert (Hv : is_video_ext oe = false).
  { rewrite image_ext_video by done. by apply String.eqb_neq. }
  assert (E : convert_cmd ffmpeg input_file output_file o
    = [ffmpeg; "-i"; input_file; "-ss"; "00:00:01"; "-vframes"; "1"]
      ++ (image_quality_args oe (quality o) ++ vf_args (image_filters oe o) ++ ["-y"])
      ++ [output_file]).
  { rewrite convert_cmd_image_output by done. fold ie oe. rewrite Hi.
    rewrite build_image_opts_shape. unfold oe at 1 2. rewrite lower_idem.
    reflexivity. }
  split.
  - rewrite E. by rewrite <- !app_assoc.
  - rewrite E. cbn [tl app].
    rewrite (count_occ_cons_neq _ _ (x := "-i")) by discriminate.
    rewrite (count_occ_cons_neq _ _ (x := input_file)) by
      (intros ?; by eapply video_file_not_flag).
    rewrite 2!count_occ_cons_neq by discriminate.
    rewrite count_occ_cons_eq by reflexivity.
    rewrite count_occ_cons_neq by discriminate.
    rewrite count_occ_app, count_vframes_image_opts.
    rewrite count_occ_cons_neq by (intros ?; by eapply image_file_not_flag).
    reflexivity.
Qed.

Lemma video_to_image_extracts_one_frame_witness :
  convert_cmd "ffmpeg.exe" "clip.mp4" "shot.jpg"
    (mkOptions (Some 640) None None (Some 0) None None None None None None)
  = ["ffmpeg.exe"; "-i"; "clip.mp4"; "-ss"; "00:00:01"; "-vframes"; "1";
     "-q:v"; "2"; "-vf"; "scale=640:-1:flags=lanczos,format=yuvj420p"; "-y"; "shot.jpg"].
Proof.
  apply (video_to_image_extracts_one_frame "ffmpeg.exe" "clip.mp4" "shot.jpg"
    (mkOptions (Some 640) None None (Some 0) None None None None None None));
    [reflexivity | reflexivity | vm_compute; discriminate].
Defined.

(** C7, counterexample. [.mp4] is a video extension and [.gif] is in the
    image table, yet the command for this pair has neither the seek nor
    the frame limit: [convert] takes [.gif] for a video output. *)
Lemma video_to_gif_has_no_frame_limit :
  is_video_ext (Py.lower (Path.suffix "clip.mp4")) = true /\
  is_image_ext (Py.lower (Path.suffix "clip.gif")) = true /\
  convert_cmd "ffmpeg.exe" "clip.mp4" "clip.gif" default_options
  = ["ffmpeg.exe"; "-i"; "clip.mp4";
     "-vf"; "fps=30,scale=480:-1:flags=lanczos,split[s0][s1];[s0]palettegen=max_colors=128[p];[s1][p]paletteuse";
     "-loop"; "0"; "clip.gif"] /\
  count_occ string_dec (convert_cmd "ffmpeg.exe" "clip.mp4" "clip.gif" default_options)
    "-vframes" = 0%nat /\
  count_occ string_dec (convert_cmd "ffmpeg.exe" "clip.mp4" "clip.gif" default_options)
    "-ss" = 0%nat.
Proof. by vm_compute. Qed.

Lemma image_quality_args_other (e : string) (q : option Z) :
  is_image_ext e = false -> image_quality_args e q = [].
Proof.
  intros He. unfold image_quality_args.
  repeat case_bool_decide; try done;
    repeat match goal with H : _ \/ _ |- _ => destruct H end;
    subst; vm_compute in He; discriminate.
Qed.

Lemma image_filters_other (e : string) (o : ConvertOptions) :
  is_image_ext e = false ->
  image_filters e o
  = if (Py.truthy_int (width o) || Py.truthy_int (height o))%bool
    then ["scale=" +:+ Py.str (Py.or_int (width o) (-1)) +:+ ":" +:+
          Py.str (Py.or_int (height o) (-1)) +:+ ":flags=lanczos"]
    else [].
Proof.
  intros He. unfold image_filters.
  case_bool_decide as Hj; [|by rewrite app_nil_r].
  destruct Hj; subst; vm_compute in He; discriminate.
Qed.

(** C9. An output extension that is neither video nor image (every audio
    extension is such) goes through the image builder: the command is the
    input, the seek and one-frame limit when the input is video, the image
    builder's arguments and the output. For such an extension the image
    builder emits no quality argument: only the scale filter, when a
    dimension is set, and [-y]. *)
Theorem other_output_uses_image_builder
    (ffmpeg input_file output_file : string) (o : ConvertOptions) :
  let ie := Py.lower (Path.suffix input_file) in
  let oe := Py.lower (Path.suffix output_file) in
  let scale :=
    if (Py.truthy_int (width o) || Py.truthy_int (height o))%bool
    then ["-vf"; "scale=" +:+ Py.str (Py.or_int (width o) (-1)) +:+ ":" +:+
                 Py.str (Py.or_int (height o) (-1)) +:+ ":flags=lanczos"]
    else [] in
  is_video_ext oe = false -> is_image_ext oe = false ->
  convert_cmd ffmpeg input_file output_file o
  = [ffmpeg; "-i"; input_file]
    ++ (if is_video_ext ie then ["-ss"; "00:00:01"; "-vframes"; "1"] else [])
    ++ _build_image_opts oe o ++ [output_file] /\
  _build_image_opts oe o = scale ++ ["-y"] /\
  (is_video_ext ie = true ->
   convert_cmd ffmpeg input_file output_file o
   = [ffmpeg; "-i"; input_file; "-ss"; "00:00:01"; "-vframes"; "1"]
     ++ scale ++ ["-y"; output_file]) /\
  (forall e, e ∈ AUDIO_EXTS -> is_video_ext e = false /\ is_image_ext e = false).
Proof.
  intros ie oe scale Hv Hi.
  assert (Eb : _build_image_opts oe o = scale ++ ["-y"]).
  { rewrite build_image_opts_shape. unfold oe. rewrite lower_idem. fold oe.
    rewrite image_quality_args_other, image_filters_other by done.
    subst scale. by destruct (Py.truthy_int (width o) || Py.truthy_int (height o))%bool. }
  assert (Ec := convert_cmd_image_output ffmpeg input_file output_file o Hv).
  fold ie oe in Ec.
  split; [exact Ec|]. split; [exact Eb|]. split.
  - intros Hvi. rewrite Ec, Hvi, Eb. by rewrite <- !app_assoc.
  - apply audio_ext_class.
Qed.

Lemma other_output_uses_image_builder_witness :
  convert_cmd "ffmpeg.exe" "clip.mp4" "clip_audio.mp3" default_options
  = ["ffmpeg.exe"; "-i"; "clip.mp4"; "-ss"; "00:00:01"; "-vframes"; "1"; "-y";
     "clip_audio.mp3"].
Proof.
  pose proof (other_output_uses_image_builder "ffmpeg.exe" "clip.mp4" "clip_audio.mp3"
                default_options eq_refl eq_refl) as (_ & _ & H & _).
  exact (H eq_refl).
Defined.



(** *** The process runner *)

Lemma convert_returns (h : Host) (input_file output_file : string)
    (opts : option ConvertOptions) :
  exists b, result (convert h input_file output_file opts) = inr b.
Proof.
  unfold convert, result.
  destruct (path_exists h input_file); cbn [negb]; [|by eexists].
  destruct (ffmpeg_path h) as [ffmpeg|]; cbn; [|by eexists].
  destruct (run_engine h _) as [[rc sz]|]; cbn; [|by eexists].
  destruct (rc =? 0); cbn; [|by eexists].
  destruct sz; cbn; by eexists.
Qed.

(** C1. [convert] always returns, and it returns [True] exactly when the
    input exists, the engine was started, its exit status is zero and the
    size of the output file could be read, that is, the output file
    exists. A zero status with a missing output file gives [False]. *)
Theorem convert_success_condition (h : Host) (input_file output_file : string)
    (opts : option ConvertOptions) :
  let o := default default_options opts in
  (exists b, result (convert h input_file output_file opts) = inr b) /\
  (result (convert h input_file output_file opts) = inr true <->
   path_exists h input_file = true /\
   exists ffmpeg run,
     ffmpeg_path h = Some ffmpeg /\
     run_engine h (convert_cmd ffmpeg input_file output_file o) = Some run /\
     returncode run = 0 /\ is_Some (out_size run)) /\
  (forall ffmpeg run,
     ffmpeg_path h = Some ffmpeg ->
     run_engine h (convert_cmd ffmpeg input_file output_file o) = Some run ->
     returncode run = 0 -> out_size run = None ->
     result (convert h input_file output_file opts) = inr false).
Proof.
  intros o. split; [apply convert_returns|]. split.
  - unfold convert, result. fold o.
    destruct (path_exists h input_file); cbn [negb].
    2:{ cbn. split; [discriminate|]. by intros [? _]. }
    destruct (ffmpeg_path h) as [ffmpeg|]; cbn.
    2:{ split; [discriminate|]. by intros (_ & ? & ? & ? & _). }
    destruct (run_engine h _) as [[rc sz]|] eqn:Hrun; cbn.
    2:{ split; [discriminate|]. intros (_ & ? & ? & [= <-] & Hr & _). congruence. }
    destruct (Z.eqb_spec rc 0) as [->|Hrc]; cbn.
    2:{ split; [discriminate|].
        intros (_ & ? & ? & [= <-] & Hr & Hz & _). rewrite Hrun in Hr.
        injection Hr as <-. done. }
    destruct sz as [n|]; cbn.
    + split; [|done]. intros _. split; [done|]. by eexists _, _.
    + split; [discriminate|].
      intros (_ & ? & ? & [= <-] & Hr & _ & Hs). rewrite Hrun in Hr.
      injection Hr as <-. by destruct Hs.
  - intros ffmpeg run Hf Hr Hrc Hsz. unfold convert, result. fold o.
    destruct (path_exists h input_file); cbn [negb]; [|done].
    rewrite Hf. cbn. rewrite Hr. cbn. rewrite Hrc, Hsz. reflexivity.
Qed.

Lemma convert_success_condition_witness :
  result (convert
            (mkHost (Some "ffmpeg.exe") None (fun _ => true) (fun _ => None)
                    (fun _ => None) (fun _ => Some (mkRun 0 None)))
            "clip.mp4" "clip.mkv" None) = inr false.
Proof.
  pose proof (convert_success_condition
    (mkHost (Some "ffmpeg.exe") None (fun _ => true) (fun _ => None)
            (fun _ => None) (fun _ => Some (mkRun 0 None)))
    "clip.mp4" "clip.mkv" None) as (_ & _ & H).
  exact (H "ffmpeg.exe" (mkRun 0 None) eq_refl eq_refl eq_refl eq_refl).
Defined.

(** C1, counterexample. The engine exits with status zero and leaves an
    output file of size zero: [convert] reports success. *)
Lemma empty_output_counts_as_success :
  convert
    (mkHost (Some "ffmpeg.exe") None (fun _ => true) (fun _ => None)
            (fun _ => None) (fun _ => Some (mkRun 0 (Some 0))))
    "clip.mp4" "clip.mkv" None
  = ([Engine ["ffmpeg.exe"; "-i"; "clip.mp4"; "-c:v"; "libx264";
              "-c:a"; "aac"; "-b:a"; "192k"; "clip.mkv"];
      Report (ConvertOk 0)],
     inr true).
Proof. by vm_compute. Qed.

(** *** Probing and compression *)

Lemma get_info_cases (h : Host) (filepath : string) :
  exists t info, get_info h filepath = (t, inr info) /\
                 (t = [] \/ exists cmd, t = [Probe cmd]).
Proof.
  unfold get_info.
  destruct (ffprobe_path h) as [p|]; [|by eexists _, _; split; [|left]].
  destruct (String.eqb p ""); [by eexists _, _; split; [|left]|].
  destruct (run_probe h _) as [out|]; cbn;
    eexists _, _; (split; [reflexivity|right; by eexists]).
Qed.

(** X26. When the probe yields no entry at all, no duration entry, or a
    duration text that [float] reads as zero, [compress_media] reports the
    failure and returns [False]; its trace is the probe call followed by
    that one report, so the engine is never started and no directory is
    created. *)
Theorem compress_without_duration (h : Host) (input_file : string)
    (target_size_mb : Z) (opts : option ConvertOptions) (info : gmap string string) :
  result (get_info h input_file) = inr info ->
  duration_unavailable h info ->
  compress_media h input_file target_size_mb opts
  = (trace (get_info h input_file)
       ++ [Report (if bool_decide (info = ∅) then NoInfo else NoDuration)],
     inr false) /\
  (forall cmd, Engine cmd ∉ trace (compress_media h input_file target_size_mb opts)) /\
  (forall dir, Mkdir dir ∉ trace (compress_media h input_file target_size_mb opts)).
Proof.
  intros Hinfo Hno.
  destruct (get_info_cases h input_file) as (t & info' & Hg & Ht).
  rewrite Hg in Hinfo. cbn in Hinfo. injection Hinfo as ->.
  assert (E : compress_media h input_file target_size_mb opts
    = (t ++ [Report (if bool_decide (info = ∅) then NoInfo else NoDuration)], inr false)).
  { unfold compress_media. rewrite Hg. cbn [bind].
    case_bool_decide as He; [reflexivity|].
    destruct Hno as [?|[Hd|(s & d & Hd & Hs & Hz)]]; [done| |].
    - rewrite Hd. cbn. reflexivity.
    - rewrite Hd. cbn. rewrite Hs. cbn. rewrite Hz. reflexivity. }
  rewrite E, Hg. cbn [trace fst]. split; [done|].
  split; intros x Hin; apply elem_of_app in Hin as [Hin|Hin].
  - destruct Ht as [->|[c ->]]; [by apply elem_of_nil in Hin|].
    by apply list_elem_of_singleton in Hin.
  - apply list_elem_of_singleton in Hin. by case_bool_decide.
  - destruct Ht as [->|[c ->]]; [by apply elem_of_nil in Hin|].
    by apply list_elem_of_singleton in Hin.
  - apply list_elem_of_singleton in Hin. by case_bool_decide.
Qed.

Lemma compress_without_duration_witness :
  compress_media
    (mkHost (Some "ffmpeg.exe") (Some "ffprobe.exe") (fun _ => true) (fun _ => None)
            (fun _ => Some ("width=1920" +:+ String nl "height=1080"))
            (fun _ => Some (mkRun 0 (Some 1))))
    "clip.mp4" 50 None
  = ([Probe (probe_cmd "ffprobe.exe" "clip.mp4"); Report NoDuration], inr false).
Proof.
  apply (compress_without_duration
    (mkHost (Some "ffmpeg.exe") (Some "ffprobe.exe") (fun _ => true) (fun _ => None)
            (fun _ => Some ("width=1920" +:+ String nl "height=1080"))
            (fun _ => Some (mkRun 0 (Some 1))))
    "clip.mp4" 50 None
    (parse_info ("width=1920" +:+ String nl "height=1080"))).
  - reflexivity.
  - right. left. by vm_compute.
Defined.

(** C8. A duration that the probe prints as missing is not a reported
    failure.  When the probe's duration entry is the text [N/A], which
    [float] rejects, [compress_media] neither reports anything nor returns
    [False]: it raises [ValueError] right after the probe call.  The engine
    is still not started and no directory is created. *)
Theorem compress_na_duration_raises (h : Host) (input_file : string)
    (target_size_mb : Z) (opts : option ConvertOptions) (info : gmap string string) :
  result (get_info h input_file) = inr info ->
  info !! "duration" = Some "N/A" ->
  float_of_str h "N/A" = None ->
  compress_media h input_file target_size_mb opts
  = (trace (get_info h input_file), inl ValueError) /\
  result (compress_media h input_file target_size_mb opts) <> inr false /\
  (forall m, Report m ∉ trace (compress_media h input_file target_size_mb opts)) /\
  (forall cmd, Engine cmd ∉ trace (compress_media h input_file target_size_mb opts)) /\
  (forall dir, Mkdir dir ∉ trace (compress_media h input_file target_size_mb opts)).
Proof.
  intros Hinfo Hd Hf.
  destruct (get_info_cases h input_file) as (t & info' & Hg & Ht).
  rewrite Hg in Hinfo. cbn in Hinfo. injection Hinfo as ->.
  assert (Hne : info <> ∅).
  { intros ->. by rewrite lookup_empty in Hd. }
  assert (E : compress_media h input_file target_size_mb opts = (t, inl ValueError)).
  { unfold compress_media. rewrite Hg. cbn [bind].
    rewrite bool_decide_eq_false_2 by done.
    unfold duration_field. rewrite Hd. cbn. rewrite Hf. cbn.
    by rewrite app_nil_r. }
  rewrite E, Hg. cbn [trace result fst snd].
  split; [done|]. split; [done|].
  split; [|split]; intros x Hin;
    (destruct Ht as [->|[c ->]];
     [by apply elem_of_nil in Hin|by apply list_elem_of_singleton in Hin]).
Qed.

Lemma compress_na_duration_raises_witness :
  compress_media
    (mkHost (Some "ffmpeg.exe") (Some "ffprobe.exe") (fun _ => true) (fun _ => None)
            (fun _ => Some ("codec_name=png" +:+ String nl "duration=N/A"))
            (fun _ => Some (mkRun 0 (Some 1))))
    "cover.png" 50 None
  = ([Probe (probe_cmd "ffprobe.exe" "cover.png")], inl ValueError).
Proof.
  apply (compress_na_duration_raises
    (mkHost (Some "ffmpeg.exe") (Some "ffprobe.exe") (fun _ => true) (fun _ => None)
            (fun _ => Some ("codec_name=png" +:+ String nl "duration=N/A"))
            (fun _ => Some (mkRun 0 (Some 1))))
    "cover.png" 50 None
    (parse_info ("codec_name=png" +:+ String nl "duration=N/A"))).
  - reflexivity.
  - by vm_compute.
  - reflexivity.
Defined.

(** *** Output paths *)

Lemma has_app (p : ascii -> bool) (s t : string) :
  Path.has p (s +:+ t) = (Path.has p s || Path.has p t)%bool.
Proof.
  induction s as [|c s IH]; [reflexivity|].
  rewrite app_cons_str. simpl. rewrite IH. apply orb_assoc.
Qed.

Lemma has_sep_name (p : string) : Path.has Path.is_sep (Path.name p) = false.
Proof.
  induction p as [|c p IH]; [reflexivity|]. simpl.
  destruct (Path.has Path.is_sep p) eqn:Hp; [done|].
  destruct (Path.is_sep c) eqn:Hc; [done|]. simpl. by rewrite Hc, Hp.
Qed.

Lemma has_take (p : ascii -> bool) (n : nat) (s : string) :
  Path.has p s = false -> Path.has p (Path.take n s) = false.
Proof.
  revert s. induction n as [|n IH]; intros [|c s]; try done. simpl.
  intros [Hc Hs]%orb_false_elim. by rewrite Hc, IH.
Qed.

Lemma name_no_sep (s : string) : Path.has Path.is_sep s = false -> Path.name s = s.
Proof.
  destruct s as [|c s]; [done|]. simpl.
  intros [Hc Hs]%orb_false_elim. by rewrite Hs, Hc.
Qed.

Lemma name_join (dir : option string) (file : string) :
  Path.has Path.is_sep file = false -> Path.name (Path.join dir file) = file.
Proof.
  intros Hf. destruct dir as [d|]; [|by apply name_no_sep]. unfold Path.join.
  induction d as [|c d IH].
  - rewrite app_nil_l_str, app_cons_str, app_nil_l_str. simpl. by rewrite Hf.
  - rewrite app_cons_str. simpl. rewrite has_app, app_cons_str. simpl.
    by rewrite orb_true_r.
Qed.

Lemma from_last_dot_mp4 (s : string) : Path.from_last_dot (s +:+ ".mp4") = ".mp4".
Proof.
  induction s as [|c s IH]; [reflexivity|].
  rewrite app_cons_str. simpl. rewrite has_app. simpl. by rewrite orb_true_r.
Qed.

Lemma app_assoc_str (s t u : string) : (s +:+ t) +:+ u = s +:+ t +:+ u.
Proof.
  induction s as [|c s IH]; [reflexivity|].
  by rewrite !app_cons_str, IH.
Qed.

Lemma get_output_path_value (input_file suffix ext : string) (o : ConvertOptions) :
  _get_output_path input_file suffix ext o
  = (if Py.truthy_str (output_dir o) then [Mkdir (default "" (output_dir o))] else [],
     inr (output_path input_file suffix ext o)).
Proof.
  unfold _get_output_path, output_path.
  by destruct (Py.truthy_str (output_dir o)).
Qed.

Lemma compressed_path_suffix (input_file : string) (o : ConvertOptions) :
  Path.suffix (output_path input_file "compressed" "mp4" o) = ".mp4".
Proof.
  unfold output_path, Path.suffix.
  assert (Hs : Path.has Path.is_sep (Path.stem input_file) = false).
  { unfold Path.stem. apply has_take, has_sep_name. }
  rewrite name_join by (by rewrite has_app, Hs).
  destruct (Path.stem input_file) as [|c s]; [reflexivity|].
  rewrite app_cons_str.
  change ("_" +:+ "compressed" +:+ "." +:+ "mp4") with ("_compressed" +:+ ".mp4").
  by rewrite <- app_assoc_str, from_last_dot_mp4.
Qed.

Lemma str_k_nonempty (n : Z) : Py.truthy_str (Some (Py.str n +:+ "k")) = true.
Proof.
  simpl. apply negb_true_iff, String.eqb_neq. intros H.
  apply (f_equal String.length) in H. rewrite length_app_str in H.
  simpl in H. lia.
Qed.

(** The video arguments for the options of [compress_media]. *)
Lemma build_video_opts_comp (bits : Z) (o : ConvertOptions) :
  _build_video_opts ".mp4" (comp_opts bits o)
  = ["-c:v"; "libx264"; "-b:v"; Py.str (bits / 1024) +:+ "k";
     "-preset"; "slow"; "-c:a"; "aac"; "-b:a"; "128k"].
Proof.
  rewrite build_video_opts_shape. unfold rate_args, comp_opts.
  cbn [quality bitrate]. rewrite str_k_nonempty. reflexivity.
Qed.

(** C2. Size-targeted compression with a non-zero probed duration [d]: the
    total is [(target_size_mb * 8 * 1024 * 1024) / d] in binary64; the 0.9
    margin is applied to that total, nothing being subtracted for audio;
    the product is truncated to an integer [bits], and [convert] is called
    with the video bitrate [bits // 1024] followed by [k], the audio
    bitrate fixed at [128k] and the preset [slow], on an output path that
    ends in [.mp4]. For an input that is not an image the engine arguments
    are [-c:v libx264 -b:v <bitrate> -preset slow -c:a aac -b:a 128k]. *)
Theorem compress_bitrate_formula (h : Host) (input_file : string)
    (target_size_mb : Z) (opts : option ConvertOptions)
    (info : gmap string string) (d total : spec_float) (bits : Z) :
  result (get_info h input_file) = inr info ->
  info <> ∅ ->
  py_float h (duration_field info) = ret d ->
  F64.eqb d F64.zero = false ->
  F64.of_int (target_size_mb * 8 * 1024 * 1024) = ret total ->
  F64.to_int (F64.mul (F64.div total d) F64.c0_9) = ret bits ->
  let o := default default_options opts in
  let rate := Py.str (bits / 1024) +:+ "k" in
  let comp := mkOptions None None None None (Some rate) (Some "128k") None
                        (Some "slow") None (output_dir o) in
  let output := output_path input_file "compressed" "mp4" o in
  let run := convert h input_file output (Some comp) in
  compress_media h input_file target_size_mb opts
  = (trace (get_info h input_file)
       ++ (if Py.truthy_str (output_dir o) then [Mkdir (default "" (output_dir o))] else [])
       ++ [Report (TargetSize target_size_mb); Report (ComputedBitrate (Some rate))]
       ++ trace run,
     result run) /\
  Path.suffix output = ".mp4" /\
  (is_image_ext (Py.lower (Path.suffix input_file)) = false ->
   forall ffmpeg,
     convert_cmd ffmpeg input_file output comp
     = [ffmpeg; "-i"; input_file; "-c:v"; "libx264"; "-b:v"; rate;
        "-preset"; "slow"; "-c:a"; "aac"; "-b:a"; "128k"; output]).
Proof.
  intros Hinfo Hne Hd Hz Htotal Hbits o rate comp output run.
  assert (Hsuf : Path.suffix output = ".mp4") by apply compressed_path_suffix.
  split; [|split; [exact Hsuf|]].
  - destruct (get_info_cases h input_file) as (t & info' & Hg & _).
    rewrite Hg in Hinfo. cbn in Hinfo. injection Hinfo as ->.
    unfold compress_media. fold o. rewrite Hg. cbn [bind trace fst].
    rewrite bool_decide_eq_false_2 by done.
    rewrite Hd. cbn [bind ret]. rewrite Hz.
    unfold target_bits_safe. rewrite Htotal. cbn [bind ret]. rewrite Hbits.
    rewrite get_output_path_value. fold output. cbn [bind ret emit].
    change (comp_opts bits o) with comp. fold run.
    destruct run as [tr r]. cbn [trace result fst snd app].
    by rewrite <- ?app_assoc.
  - intros Hi ffmpeg. unfold convert_cmd. rewrite Hsuf, Hi.
    change (is_video_ext (Py.lower ".mp4")) with true. cbn iota.
    change (Py.lower ".mp4") with ".mp4".
    change comp with (comp_opts bits o). by rewrite build_video_opts_comp.
Qed.

Lemma compress_bitrate_formula_witness :
  compress_media host_100s "clip.mkv" 50 None
  = ([Probe (probe_cmd "ffprobe.exe" "clip.mkv");
      Report (TargetSize 50); Report (ComputedBitrate (Some "3686k"));
      Engine ["ffmpeg.exe"; "-i"; "clip.mkv"; "-c:v"; "libx264"; "-b:v"; "3686k";
              "-preset"; "slow"; "-c:a"; "aac"; "-b:a"; "128k"; "clip_compressed.mp4"];
      Report (ConvertOk 52000000)],
     inr true).
Proof.
  apply (compress_bitrate_formula host_100s "clip.mkv" 50 None
           (parse_info ("duration=100.000000" +:+ String nl "size=73400320"))
           (F64.of_Z 100) (F64.of_Z 419430400) 3774873).
  - reflexivity.
  - intros H. apply (f_equal (lookup "duration")) in H.
    vm_compute in H. discriminate.
  - vm_compute. reflexivity.
  - reflexivity.
  - reflexivity.
  - reflexivity.
Defined.

(** C2, counterexample. For 50 MB and 100 seconds the total is 4194304
    bit/s; the code emits [3686k], which is 0.9 times the total. Reserving
    128 kbit/s (read as 128000 or as 131072 bit/s) before the margin would
    give [3573k] or [3571k]. *)
Lemma compress_reserves_no_audio_share :
  target_bits_safe 50 (F64.of_Z 100) = ret 3774873 /\
  bitrate (comp_opts 3774873 default_options) = Some "3686k" /\
  audio_bitrate (comp_opts 3774873 default_options) = Some "128k" /\
  spec_bits_safe 128000 50 (F64.of_Z 100) = ret 3659673 /\
  spec_bits_safe 131072 50 (F64.of_Z 100) = ret 3656908 /\
  Py.str (3659673 / 1024) +:+ "k" = "3573k" /\
  Py.str (3656908 / 1024) +:+ "k" = "3571k" /\
  trace (compress_media host_100s "clip.mkv" 50 None)
  = [Probe (probe_cmd "ffprobe.exe" "clip.mkv");
     Report (TargetSize 50); Report (ComputedBitrate (Some "3686k"));
     Engine ["ffmpeg.exe"; "-i"; "clip.mkv"; "-c:v"; "libx264"; "-b:v"; "3686k";
             "-preset"; "slow"; "-c:a"; "aac"; "-b:a"; "128k"; "clip_compressed.mp4"];
     Report (ConvertOk 52000000)].
Proof. by vm_compute. Qed.


(** * Further properties *)

(** ** [parse_size] *)

Lemma span_digits_app (d t : string) :
  all_chars is_digit d = true -> span_digits t = (EmptyString, t) ->
  span_digits (d +:+ t) = (d, t).
Proof.
  intros Hd Ht. induction d as [|c d IH]; [done|].
  simpl in Hd. apply andb_prop in Hd as [Hc Hd].
  rewrite app_cons_str. simpl. by rewrite Hc, IH.
Qed.

Lemma span_digits_fst (s : string) : all_chars is_digit (fst (span_digits s)) = true.
Proof.
  induction s as [|c s IH]; [done|]. simpl.
  destruct (is_digit c) eqn:Hc; [|done].
  destruct (span_digits s) as [a r]. simpl in *. by rewrite Hc, IH.
Qed.

Lemma digit_value_char (x : N) :
  (x < 10)%N -> PyStr.digit_value (pretty_N_char x) = Z.of_N x.
Proof.
  intros Hx.
  assert (x = 0 \/ x = 1 \/ x = 2 \/ x = 3 \/ x = 4 \/ x = 5 \/ x = 6 \/ x = 7
          \/ x = 8 \/ x = 9)%N as Hc by lia.
  repeat (destruct Hc as [->|Hc]; [reflexivity|]). by subst.
Qed.

Lemma int_from_pretty_go (x : N) (s : string) :
  exists p, forall a,
    PyStr.int_from a (pretty_N_go x s) = PyStr.int_from (a * p + Z.of_N x) s.
Proof.
  revert s. induction (N.lt_wf_0 x) as [x _ IH]. intros s.
  destruct (decide (x = 0)%N) as [->|Hx].
  - exists 1. intros a. rewrite pretty_N_go_0. f_equal. lia.
  - rewrite pretty_N_go_step by lia.
    destruct (IH (x `div` 10)%N ltac:(apply N.div_lt; lia)
                 (String (pretty_N_char (x `mod` 10)) s)) as [p Hp].
    exists (p * 10). intros a. rewrite Hp. simpl. f_equal.
    rewrite digit_value_char by (apply N.mod_lt; lia).
    rewrite (N.div_mod x 10) at 3 by lia. lia.
Qed.

Lemma int_str (n : Z) : 0 <= n -> PyStr.int (Py.str n) = n.
Proof.
  intros Hn. unfold PyStr.int, Py.str, pretty, pretty_Z.
  destruct n as [|p|p]; [reflexivity| |lia].
  unfold pretty, pretty_positive, pretty, pretty_N.
  rewrite decide_False by done.
  destruct (int_from_pretty_go (N.pos p) "") as [q Hq]. by rewrite Hq.
Qed.

Lemma str_digits (n : Z) : 0 <= n -> all_chars is_digit (Py.str n) = true.
Proof.
  intros Hn. unfold Py.str, pretty, pretty_Z.
  destruct n as [|p|p]; [reflexivity|apply pretty_N_digits|lia].
Qed.

Lemma str_nonempty (n : Z) : exists c s, Py.str n = String c s.
Proof.
  destruct (Py.str n) as [|c s] eqn:E; [|by eexists _, _].
  assert (Hz : Py.str n = Py.str 0 -> False).
  { rewrite E. discriminate. }
  pose proof (str_numeral n) as Hnum.
  exfalso. unfold Py.str, pretty, pretty_Z in E.
  destruct n as [|p|p]; [discriminate| |discriminate].
  unfold pretty, pretty_positive, pretty, pretty_N in E.
  rewrite decide_False in E by done.
  destruct (int_from_pretty_go (N.pos p) "") as [q Hq].
  specialize (Hq 0). rewrite E in Hq. simpl in Hq. lia.
Qed.

Lemma int_from_nonneg (s : string) (a : Z) :
  all_chars is_digit s = true -> 0 <= a -> 0 <= PyStr.int_from a s.
Proof.
  revert a. induction s as [|c s IH]; intros a Hs Ha; [done|].
  simpl in *. apply andb_prop in Hs as [Hc Hs]. apply IH; [done|].
  unfold is_digit in Hc. apply andb_prop in Hc as [Hc _].
  apply Nat.leb_le in Hc. unfold PyStr.digit_value. lia.
Qed.

Lemma lower_digits (s : string) : all_chars is_digit s = true -> Py.lower s = s.
Proof.
  induction s as [|c s IH]; [done|]. simpl.
  intros [Hc Hs]%andb_prop. rewrite IH by done. f_equal.
  unfold is_digit in Hc. apply andb_prop in Hc as [_ Hc]. apply Nat.leb_le in Hc.
  unfold Py.lower_ascii.
  destruct (Nat.leb_spec 65 (nat_of_ascii c)); [lia|done].
Qed.

Lemma parse_size_groups (a b t : string) (c : ascii) :
  PyStr.isdigit a = true -> PyStr.isdigit b = true ->
  c = "x"%char \/ c = "X"%char ->
  span_digits t = (EmptyString, t) ->
  parse_size (a +:+ String c (b +:+ t)) = (Some (PyStr.int a), Some (PyStr.int b)).
Proof.
  intros Ha Hb Hc Ht.
  destruct a as [|ca a']; [done|]. destruct b as [|cb b']; [done|].
  unfold PyStr.isdigit in Ha, Hb. unfold parse_size, match_size.
  assert (Hsep : span_digits (String c (String cb b' +:+ t))
                 = (EmptyString, String c (String cb b' +:+ t))).
  { by destruct Hc as [-> | ->]. }
  rewrite (span_digits_app (String ca a')) by done.
  rewrite (span_digits_app (String cb b')) by done.
  assert (Hx : (Ascii.eqb c "x" || Ascii.eqb c "X")%bool = true)
    by (by destruct Hc as [-> | ->]).
  rewrite Hx. reflexivity.
Qed.

Lemma isdigit_str (n : Z) : 0 <= n -> PyStr.isdigit (Py.str n) = true.
Proof.
  intros Hn. destruct (str_nonempty n) as (c & s & E).
  unfold PyStr.isdigit. rewrite E, <- E. by apply str_digits.
Qed.

(** X1. A size typed as digits, [x] or [X], digits is read back as the two
    numbers, whatever follows the second number. *)
Theorem parse_size_round_trip (w h : Z) (c : ascii) (t : string) :
  0 <= w -> 0 <= h -> c = "x"%char \/ c = "X"%char ->
  span_digits t = (EmptyString, t) ->
  parse_size (Py.str w +:+ String c (Py.str h +:+ t)) = (Some w, Some h).
Proof.
  intros Hw Hh Hc Ht.
  rewrite parse_size_groups by (done || by apply isdigit_str).
  by rewrite !int_str.
Qed.

Lemma parse_size_round_trip_witness :
  parse_size "1920x1080 px" = (Some 1920, Some 1080).
Proof.
  apply (parse_size_round_trip 1920 1080 "x" " px"); [lia|lia|by left|reflexivity].
Defined.

Lemma parse_size_digits (d : string) :
  PyStr.isdigit d = true -> parse_size d = (Some (PyStr.int d), None).
Proof.
  intros Hi. destruct d as [|c d']; [done|].
  assert (Hd : all_chars is_digit (String c d') = true) by exact Hi.
  assert (Hs : span_digits (String c d') = (String c d', EmptyString)).
  { rewrite <- (app_nil_r_str (String c d')) at 1. by apply span_digits_app. }
  assert (Hne : forall lit, all_chars is_digit lit = false ->
                            String.eqb (String c d') lit = false).
  { intros lit Hl. apply String.eqb_neq. intros Heq. congruence. }
  unfold parse_size, match_size. rewrite Hs, lower_digits, Hi by done.
  change (String.eqb (String c d') "") with false.
  rewrite (Hne "1080p"), (Hne "720p"), (Hne "480p") by reflexivity.
  reflexivity.
Qed.

(** X2. A size typed as digits only is a width without a height. *)
Theorem parse_size_width_only (n : Z) :
  0 <= n -> parse_size (Py.str n) = (Some n, None).
Proof.
  intros Hn. rewrite parse_size_digits by (by apply isdigit_str).
  by rewrite int_str.
Qed.

Lemma parse_size_width_only_witness : parse_size "800" = (Some 800, None).
Proof. apply (parse_size_width_only 800). lia. Defined.

Lemma parse_size_bounds (s : string) :
  (forall w, fst (parse_size s) = Some w -> 0 <= w) /\
  (forall h, snd (parse_size s) = Some h -> 0 <= h) /\
  (fst (parse_size s) = None -> snd (parse_size s) = None).
Proof.
  assert (Hint : forall d, all_chars is_digit d = true -> 0 <= PyStr.int d).
  { intros d Hd. by apply int_from_nonneg. }
  unfold parse_size, match_size.
  destruct (String.eqb s ""); [by repeat split|].
  pose proof (span_digits_fst s) as Ha.
  destruct (span_digits s) as [a r]. cbn [fst] in Ha.
  assert (Hrest :
    let res :=
      if String.eqb (Py.lower s) "1080p" then (Some 1920, Some 1080)
      else if String.eqb (Py.lower s) "720p" then (Some 1280, Some 720)
      else if String.eqb (Py.lower s) "480p" then (Some 854, Some 480)
      else if PyStr.isdigit s then (Some (PyStr.int s), None)
      else (None, None) in
    (forall w, fst res = Some w -> 0 <= w) /\
    (forall h, snd res = Some h -> 0 <= h) /\
    (fst res = None -> snd res = None)).
  { cbv zeta.
    destruct (String.eqb (Py.lower s) "1080p");
      [repeat split; cbn; intros; simplify_eq; lia|].
    destruct (String.eqb (Py.lower s) "720p");
      [repeat split; cbn; intros; simplify_eq; lia|].
    destruct (String.eqb (Py.lower s) "480p");
      [repeat split; cbn; intros; simplify_eq; lia|].
    destruct (PyStr.isdigit s) eqn:Hs; [|by repeat split].
    repeat split; cbn; intros; simplify_eq.
    apply Hint. unfold PyStr.isdigit in Hs. by destruct s. }
  destruct a as [|ca a']; [exact Hrest|].
  destruct r as [|c r']; [exact Hrest|].
  destruct (Ascii.eqb c "x" || Ascii.eqb c "X")%bool; [|exact Hrest].
  pose proof (span_digits_fst r') as Hb.
  destruct (span_digits r') as [b r'']. cbn [fst] in Hb.
  destruct b as [|cb b']; [exact Hrest|].
  repeat split; cbn [fst snd];
    [intros ? [= <-]; by apply Hint | intros ? [= <-]; by apply Hint | discriminate].
Qed.

(** X3. Whatever the text, [parse_size] never yields a negative number, and
    it yields a height only together with a width. *)
Theorem parse_size_nonnegative (s : string) :
  (forall w, fst (parse_size s) = Some w -> 0 <= w) /\
  (forall h, snd (parse_size s) = Some h -> 0 <= h) /\
  (fst (parse_size s) = None -> snd (parse_size s) = None).
Proof. apply parse_size_bounds. Qed.

Lemma parse_size_nonnegative_witness : 0 <= 640.
Proof.
  apply (proj1 (parse_size_nonnegative "640x480") 640). reflexivity.
Defined.

(** ** The argument builders *)

(** X4. [_build_filter] returns nothing exactly when width, height and
    frame rate are all unset (absent or 0); otherwise it returns one [-vf]
    flag with its chain. *)
Theorem build_filter_empty_iff (o : ConvertOptions) :
  (_build_filter o = [] <->
   Py.truthy_int (width o) = false /\ Py.truthy_int (height o) = false /\
   Py.truthy_int (fps o) = false) /\
  (_build_filter o = [] \/ exists chain, _build_filter o = ["-vf"; chain]).
Proof.
  rewrite build_filter_shape. unfold scale_filters, fps_filters.
  destruct (Py.truthy_int (width o)), (Py.truthy_int (height o)),
    (Py.truthy_int (fps o)); cbn [orb app vf_args];
    (split; [split; [try discriminate; by intros _
                    |try (by intros (? & ? & ?)); done]
            |by (left + (right; eexists))]).
Qed.

Lemma build_filter_empty_iff_witness : _build_filter default_options = [].
Proof.
  apply (proj2 (proj1 (build_filter_empty_iff default_options))).
  repeat split; reflexivity.
Defined.

(** X5. Codec selection: a non-empty [codec] always wins, also for [.gif],
    where the palette chain is then not emitted; without it, an extension
    outside the table gets no [-c:v] at all, and an extension of the table
    other than [.gif] gets the table's encoder. *)
Theorem codec_selection (ext : string) (o : ConvertOptions) :
  let rest := rate_args o ++ preset_args o ++ audio_args o ++ default [] (extra_args o) in
  (forall c, codec o = Some c -> c <> "" ->
     _build_video_opts ext o = _build_filter o ++ ["-c:v"; c] ++ rest) /\
  (Py.truthy_str (codec o) = false -> codec_map !! Py.lower ext = None ->
     _build_video_opts ext o = _build_filter o ++ rest) /\
  (forall c, Py.truthy_str (codec o) = false ->
     codec_map !! Py.lower ext = Some c -> Py.lower ext <> ".gif" ->
     _build_video_opts ext o = _build_filter o ++ ["-c:v"; c] ++ rest).
Proof.
  intros rest. subst rest. repeat split.
  - intros c Hc Hne. rewrite build_video_opts_shape. unfold gif_path, codec_args.
    rewrite Hc. cbn [Py.truthy_str default].
    apply String.eqb_neq in Hne. by rewrite Hne.
  - intros Hc Hm. rewrite build_video_opts_shape. unfold gif_path, codec_args.
    rewrite Hc, Hm. cbn [negb andb].
    destruct (String.eqb_spec (Py.lower ext) ".gif") as [Hg|_]; [|done].
    rewrite Hg, codec_map_gif in Hm. discriminate.
  - intros c Hc Hm Hg. rewrite build_video_opts_shape. unfold gif_path, codec_args.
    rewrite Hc, Hm. apply String.eqb_neq in Hg. by rewrite Hg.
Qed.

Lemma codec_selection_witness :
  _build_video_opts ".gif"
    (mkOptions None None None None None None (Some "libx265") None None None)
  = ["-c:v"; "libx265"; "-c:a"; "aac"; "-b:a"; "192k"].
Proof.
  apply (proj1 (codec_selection ".gif"
    (mkOptions None None None None None None (Some "libx265") None None None))
    "libx265"); [reflexivity|discriminate].
Defined.

(** X6. Outside the GIF branch the list always ends with the audio
    arguments ([-c:a aac -b:a] and the given bitrate, 192k when none is
    given) followed by [extra_args] as they are: audio is never dropped
    for these targets. *)
Theorem video_opts_end_with_audio (ext : string) (o : ConvertOptions) :
  gif_path ext o = false ->
  exists pre,
    _build_video_opts ext o
    = pre ++ ["-c:a"; "aac"; "-b:a"; Py.or_str (audio_bitrate o) "192k"]
          ++ default [] (extra_args o).
Proof.
  intros Hg. rewrite build_video_opts_shape, Hg.
  exists (_build_filter o ++ codec_args ext o ++ rate_args o ++ preset_args o).
  rewrite <- !app_assoc. do 4 f_equal. unfold audio_args.
  destruct (audio_bitrate o) as [a|]; [|done]. cbn.
  by destruct (String.eqb a "").
Qed.

Lemma video_opts_end_with_audio_witness :
  exists pre,
    _build_video_opts ".webm"
      (mkOptions None None None (Some 28) None None None None (Some ["-an"]) None)
    = pre ++ ["-c:a"; "aac"; "-b:a"; "192k"] ++ ["-an"].
Proof.
  apply (video_opts_end_with_audio ".webm"
    (mkOptions None None None (Some 28) None None None None (Some ["-an"]) None)).
  reflexivity.
Defined.

(** X7. On the GIF branch the result depends on width, height and frame
    rate only: quality, bitrate, preset, audio bitrate and [extra_args] are
    all ignored. *)
Theorem gif_ignores_other_options (ext : string) (o1 o2 : ConvertOptions) :
  gif_path ext o1 = true -> gif_path ext o2 = true ->
  width o1 = width o2 -> height o1 = height o2 -> fps o1 = fps o2 ->
  _build_video_opts ext o1 = _build_video_opts ext o2.
Proof.
  intros H1 H2 Hw Hh Hf.
  rewrite !build_video_opts_shape, H1, H2, !build_filter_shape.
  unfold scale_filters, fps_filters, gif_filter. by rewrite Hw, Hh, Hf.
Qed.

Lemma gif_ignores_other_options_witness :
  _build_video_opts ".gif"
    (mkOptions (Some 320) None (Some 12) (Some 10) (Some "2M") (Some "96k") None
               (Some "slow") (Some ["-an"]) None)
  = _build_video_opts ".gif"
    (mkOptions (Some 320) None (Some 12) None None None None None None None).
Proof.
  apply gif_ignores_other_options; reflexivity.
Defined.

Lemma image_quality_args_flag (e : string) (q : option Z) :
  image_quality_args e q = [] \/
  exists f n, image_quality_args e q = [f; Py.str n] /\
              (f = "-q:v" \/ f = "-compression_level").
Proof.
  unfold image_quality_args.
  repeat case_bool_decide;
    first [by left | right; eexists _, _; split; [reflexivity|by (left + right)]].
Qed.

Lemma count_y_image_opts (e : string) (o : ConvertOptions) :
  count_occ string_dec
    (image_quality_args e (quality o) ++ vf_args (image_filters e o)) "-y" = 0%nat.
Proof.
  rewrite !count_occ_app.
  destruct (image_quality_args_flag e (quality o)) as [->|(f & n & -> & [-> | ->])];
    destruct (image_vf_args_cases e o) as [->|(c & s & -> & Hc)];
    repeat first
      [ rewrite count_occ_nil
      | rewrite count_occ_cons_neq by
          first [ discriminate | by apply str_not_literal | by intros [= -> _] ] ];
    reflexivity.
Qed.

(** X8. The image builder reads width, height and quality only; its result
    always ends with [-y], which occurs exactly once. *)
Theorem image_opts_overwrite_once (ext : string) (o : ConvertOptions) :
  (forall o', width o' = width o -> height o' = height o -> quality o' = quality o ->
     _build_image_opts ext o' = _build_image_opts ext o) /\
  (exists pre, _build_image_opts ext o = pre ++ ["-y"]) /\
  count_occ string_dec (_build_image_opts ext o) "-y" = 1%nat.
Proof.
  repeat split.
  - intros o' Hw Hh Hq. rewrite !build_image_opts_shape.
    unfold image_filters. by rewrite Hw, Hh, Hq.
  - rewrite build_image_opts_shape, app_assoc. by eexists.
  - rewrite build_image_opts_shape, app_assoc, count_occ_app, count_y_image_opts.
    reflexivity.
Qed.

Lemma image_opts_overwrite_once_witness :
  _build_image_opts ".jpg"
    (mkOptions (Some 640) None (Some 30) (Some 5) (Some "2M") None (Some "mjpeg")
               None (Some ["-an"]) None)
  = _build_image_opts ".jpg"
    (mkOptions (Some 640) None None (Some 5) None None None None None None).
Proof.
  apply (proj1 (image_opts_overwrite_once ".jpg"
    (mkOptions (Some 640) None None (Some 5) None None None None None None)));
    reflexivity.
Defined.

(** ** The driver *)

(** X9. Every command line of [convert] starts with the engine path, names
    the input right after [-i] and ends with the output path.  What stands
    before [-i] is [-loop 1] exactly for the image-to-video synthesis (a
    video extension on the output and an image extension on the input) and
    nothing in every other case. *)
Theorem convert_cmd_frame (ffmpeg input_file output_file : string) (o : ConvertOptions) :
  exists pre post,
    convert_cmd ffmpeg input_file output_file o
    = ffmpeg :: pre ++ "-i" :: input_file :: post ++ [output_file] /\
    pre = (if (is_video_ext (Py.lower (Path.suffix output_file)) &&
               is_image_ext (Py.lower (Path.suffix input_file)))%bool
           then ["-loop"; "1"] else []).
Proof.
  unfold convert_cmd.
  destruct (is_video_ext (Py.lower (Path.suffix output_file)));
    [destruct (is_image_ext (Py.lower (Path.suffix input_file)))|].
  - exists ["-loop"; "1"].
    exists (["-c:v"; Py.or_str (codec o) "libx264"; "-t"; Py.str 5;
             "-pix_fmt"; "yuv420p"] ++ _build_filter o
            ++ match quality o with
               | Some q => if q =? 0 then [] else ["-crf"; Py.str q]
               | None => []
               end).
    split; [|reflexivity].
    destruct (quality o) as [q|]; [destruct (q =? 0)|];
      rewrite <- ?app_assoc, ?app_nil_r; reflexivity.
  - exists [], (_build_video_opts (Py.lower (Path.suffix output_file)) o).
    split; reflexivity.
  - exists [],
      ((if is_video_ext (Py.lower (Path.suffix input_file))
        then ["-ss"; "00:00:01"; "-vframes"; "1"] else [])
       ++ _build_image_opts (Py.lower (Path.suffix output_file)) o).
    split; [|reflexivity].
    destruct (is_video_ext (Py.lower (Path.suffix input_file)));
      rewrite <- ?app_assoc; reflexivity.
Qed.

(** [convert] with its binds carried out. *)
Lemma convert_unfold (h : Host) (input_file output_file : string)
    (opts : option ConvertOptions) :
  convert h input_file output_file opts
  = if path_exists h input_file then
      let notice := convert_notice input_file output_file in
      match ffmpeg_path h with
      | None => (notice ++ [Report ConvertError], inr false)
      | Some ffmpeg =>
          let cmd := convert_cmd ffmpeg input_file output_file
                                 (default default_options opts) in
          match run_engine h cmd with
          | None => (notice ++ [Engine cmd; Report ConvertError], inr false)
          | Some run =>
              if returncode run =? 0 then
                match out_size run with
                | Some n => (notice ++ [Engine cmd; Report (ConvertOk n)], inr true)
                | None => (notice ++ [Engine cmd; Report ConvertError], inr false)
                end
              else (notice ++ [Engine cmd; Report ConvertFailed], inr false)
          end
      end
    else ([Report (MissingInput input_file)], inr false).
Proof.
  unfold convert.
  destruct (path_exists h input_file); [|reflexivity]. cbn [negb].
  destruct (ffmpeg_path h) as [ffmpeg|]; [|reflexivity].
  cbn -[convert_cmd convert_notice].
  destruct (run_engine h _) as [[rc sz]|]; [|reflexivity].
  cbn -[convert_cmd convert_notice].
  destruct (rc =? 0); [|reflexivity].
  destruct sz; reflexivity.
Qed.

(** X10. [convert] starts the engine at most once and does nothing else to
    the system: every event of its trace is a report or the start of the
    engine, on the command line of [convert_cmd], and the engine is only
    started for an input file that exists. *)
Theorem convert_trace_events (h : Host) (input_file output_file : string)
    (opts : option ConvertOptions) :
  (forall e, e ∈ trace (convert h input_file output_file opts) ->
     (exists m, e = Report m) \/
     (exists ffmpeg,
        ffmpeg_path h = Some ffmpeg /\ path_exists h input_file = true /\
        e = Engine (convert_cmd ffmpeg input_file output_file
                                (default default_options opts)))) /\
  (length (List.filter is_engine (trace (convert h input_file output_file opts))) <= 1)%nat.
Proof.
  assert (Hn : convert_notice input_file output_file = [] \/
               exists m, convert_notice input_file output_file = [Report m]).
  { unfold convert_notice.
    destruct (is_video_ext _); [destruct (is_image_ext _)|destruct (is_video_ext _)];
      first [by left | right; eexists; reflexivity]. }
  rewrite convert_unfold.
  destruct (path_exists h input_file) eqn:Hex.
  2:{ split; [|cbn; lia]. intros e He. apply list_elem_of_singleton in He.
      left. by eexists. }
  cbv zeta. revert Hn. generalize (convert_notice input_file output_file).
  intros notice Hn.
  assert (Hnotice : forall e, e ∈ notice -> exists m, e = Report m).
  { intros e He. destruct Hn as [->|[m ->]]; [by apply elem_of_nil in He|].
    apply list_elem_of_singleton in He. by eexists. }
  assert (Hlen : length (List.filter is_engine notice) = 0%nat).
  { by destruct Hn as [->|[m ->]]. }
  destruct (ffmpeg_path h) as [ffmpeg|] eqn:Hff.
  2:{ unfold trace. cbn [fst]. split.
      - intros e [He|He]%elem_of_app; [left; by apply Hnotice|].
        apply list_elem_of_singleton in He. left. by eexists.
      - rewrite List.filter_app, List.length_app, Hlen. cbn. lia. }
  set (cmd := convert_cmd ffmpeg input_file output_file (default default_options opts)).
  assert (Hgen : forall m,
    (forall e, e ∈ notice ++ [Engine cmd; Report m] ->
       (exists m, e = Report m) \/
       (exists ffmpeg0, Some ffmpeg = Some ffmpeg0 /\ true = true /\
          e = Engine (convert_cmd ffmpeg0 input_file output_file
                                  (default default_options opts)))) /\
    (length (List.filter is_engine (notice ++ [Engine cmd; Report m])) <= 1)%nat).
  { intros m. split.
    - intros e [He|He]%elem_of_app; [left; by apply Hnotice|].
      apply elem_of_cons in He as [->|He]; [right; by exists ffmpeg|].
      apply list_elem_of_singleton in He. left. by eexists.
    - rewrite List.filter_app, List.length_app, Hlen. cbn. lia. }
  unfold trace.
  destruct (run_engine h cmd) as [[rc sz]|]; [|apply Hgen].
  cbn [returncode out_size]. destruct (rc =? 0); [|apply Hgen].
  destruct sz; apply Hgen.
Qed.

Lemma convert_trace_events_witness :
  (exists m, Report (MissingInput "gone.mp4") = Report m) \/
  (exists ffmpeg,
     ffmpeg_path (mkHost (Some "ffmpeg.exe") None (fun _ => false) (fun _ => None)
                         (fun _ => None) (fun _ => None)) = Some ffmpeg /\
     path_exists (mkHost (Some "ffmpeg.exe") None (fun _ => false) (fun _ => None)
                         (fun _ => None) (fun _ => None)) "gone.mp4" = true /\
     Report (MissingInput "gone.mp4")
     = Engine (convert_cmd ffmpeg "gone.mp4" "out.mkv" (default default_options None))).
Proof.
  apply (proj1 (convert_trace_events
    (mkHost (Some "ffmpeg.exe") None (fun _ => false) (fun _ => None)
            (fun _ => None) (fun _ => None)) "gone.mp4" "out.mkv" None)).
  apply list_elem_of_singleton. reflexivity.
Defined.

(** ** Probe output *)

Lemma split_once_app (k v : string) :
  Path.has (Ascii.eqb "=") k = false ->
  split_once "=" (k +:+ "=" +:+ v) = Some (k, v).
Proof.
  intros Hk. induction k as [|c k IH]; [reflexivity|].
  cbn [Path.has] in Hk. apply orb_false_elim in Hk as [Hc Hk].
  rewrite app_cons_str. cbn [split_once].
  rewrite Ascii.eqb_sym in Hc. rewrite Hc. by rewrite IH.
Qed.

(** The loop of [get_info], one line further. *)
Lemma parse_lines_snoc (l : list string) (line : string) (m : gmap string string) :
  fold_left
    (fun info line =>
       match split_once "=" line with
       | Some (k, v) => <[k := v]> info
       | None => info
       end) (l ++ [line]) m
  = match split_once "=" line with
    | Some (k, v) =>
        <[k := v]> (fold_left
          (fun info line =>
             match split_once "=" line with
             | Some (k, v) => <[k := v]> info
             | None => info
             end) l m)
    | None =>
        fold_left
          (fun info line =>
             match split_once "=" line with
             | Some (k, v) => <[k := v]> info
             | None => info
             end) l m
    end.
Proof. by rewrite fold_left_app. Qed.

Lemma parse_lines_lookup_none (l : list string) (m : gmap string string) (k : string) :
  fold_left
    (fun info line =>
       match split_once "=" line with
       | Some (k, v) => <[k := v]> info
       | None => info
       end) l m !! k = None
  <-> m !! k = None /\ forall line, line ∈ l -> line_key line <> Some k.
Proof.
  induction l as [|line l IH] using rev_ind.
  - simpl. split; [intros H; split; [done|]|by intros [? _]].
    intros line Hl. by apply elem_of_nil in Hl.
  - assert (Hin : line ∈ l ++ [line])
      by (apply elem_of_app; right; by apply list_elem_of_singleton).
    assert (Hsub : forall x, x ∈ l -> x ∈ l ++ [line])
      by (intros x Hx; apply elem_of_app; by left).
    rewrite parse_lines_snoc. unfold line_key in *.
    destruct (split_once "=" line) as [[k' v']|] eqn:E.
    + destruct (decide (k' = k)) as [->|Hne].
      * rewrite lookup_insert_eq. split; [discriminate|].
        intros [_ H]. exfalso. apply (H line Hin). by rewrite E.
      * rewrite lookup_insert_ne by done. rewrite IH. split.
        -- intros [Hm Hl]. split; [done|]. intros x [Hx|Hx]%elem_of_app; [by apply Hl|].
           apply list_elem_of_singleton in Hx as ->. rewrite E. congruence.
        -- intros [Hm Hl]. split; [done|]. intros x Hx. by apply Hl, Hsub.
    + rewrite IH. split.
      * intros [Hm Hl]. split; [done|]. intros x [Hx|Hx]%elem_of_app; [by apply Hl|].
        apply list_elem_of_singleton in Hx as ->. by rewrite E.
      * intros [Hm Hl]. split; [done|]. intros x Hx. by apply Hl, Hsub.
Qed.

Lemma parse_lines_lookup_keep (l : list string) (m : gmap string string) (k v : string) :
  m !! k = Some v ->
  (forall line, line ∈ l -> line_key line <> Some k) ->
  fold_left
    (fun info line =>
       match split_once "=" line with
       | Some (k, v) => <[k := v]> info
       | None => info
       end) l m !! k = Some v.
Proof.
  intros Hm. induction l as [|line l IH] using rev_ind; intros Hl; [done|].
  assert (Hline : line_key line <> Some k).
  { apply Hl, elem_of_app. right. by apply list_elem_of_singleton. }
  assert (IH' : forall x, x ∈ l -> line_key x <> Some k).
  { intros x Hx. apply Hl, elem_of_app. by left. }
  rewrite parse_lines_snoc. unfold line_key in Hline.
  destruct (split_once "=" line) as [[k' v']|]; [|by apply IH].
  rewrite lookup_insert_ne by congruence. by apply IH.
Qed.

(** X11. In the probe output the last line with a given key wins, lines
    without [=] are skipped, and the value is everything after the first
    [=] of its line, further [=] included. *)
Theorem parse_info_last_wins (stdout : string) (l1 l2 : list string) (k v : string) :
  split nl stdout = l1 ++ (k +:+ "=" +:+ v) :: l2 ->
  Path.has (Ascii.eqb "=") k = false ->
  (forall line, line ∈ l2 -> line_key line <> Some k) ->
  parse_info stdout !! k = Some v.
Proof.
  intros Hs Hk Hl2. unfold parse_info. rewrite Hs.
  rewrite fold_left_app. cbn [fold_left]. rewrite split_once_app by done.
  apply parse_lines_lookup_keep; [apply lookup_insert_eq|done].
Qed.

Lemma parse_info_last_wins_witness :
  parse_info ("duration=N/A" +:+ String nl "noise" +:+ String nl "duration=12.5=x"
              +:+ String nl "size=7") !! "duration" = Some "12.5=x".
Proof.
  apply (parse_info_last_wins _ ["duration=N/A"; "noise"] ["size=7"] "duration" "12.5=x").
  - reflexivity.
  - reflexivity.
  - intros line Hl. apply list_elem_of_singleton in Hl as ->. vm_compute. discriminate.
Defined.

Lemma parse_info_lookup_none (stdout k : string) :
  parse_info stdout !! k = None <->
  forall line, line ∈ split nl stdout -> line_key line <> Some k.
Proof.
  unfold parse_info. rewrite parse_lines_lookup_none, lookup_empty. tauto.
Qed.

Lemma parse_info_empty (stdout : string) :
  parse_info stdout = ∅ <->
  forall line, line ∈ split nl stdout -> split_once "=" line = None.
Proof.
  split.
  - intros He line Hl. destruct (split_once "=" line) as [[k v]|] eqn:E; [|done].
    exfalso. assert (Hn : parse_info stdout !! k = None) by (by rewrite He).
    pose proof (proj1 (parse_info_lookup_none stdout k) Hn) as Hn'.
    apply (Hn' line Hl). unfold line_key. by rewrite E.
  - intros Hall. apply map_empty. intros k. apply parse_info_lookup_none.
    intros line Hl. unfold line_key. by rewrite (Hall line Hl).
Qed.

(** X12. A key is absent from the probe's dictionary exactly when no line
    has it before its first [=]; the dictionary is empty exactly when no
    line contains [=]. *)
Theorem parse_info_missing (stdout : string) :
  (forall k, parse_info stdout !! k = None <->
             forall line, line ∈ split nl stdout -> line_key line <> Some k) /\
  (parse_info stdout = ∅ <->
   forall line, line ∈ split nl stdout -> split_once "=" line = None).
Proof.
  split; [intros k; apply parse_info_lookup_none|apply parse_info_empty].
Qed.

Lemma parse_info_missing_witness :
  parse_info "clip.mp4: Invalid data found when processing input" = ∅.
Proof.
  apply (proj2 (proj2 (parse_info_missing
           "clip.mp4: Invalid data found when processing input"))).
  intros line Hl. vm_compute in Hl. apply list_elem_of_singleton in Hl as ->.
  reflexivity.
Defined.

(** ** Size-targeted compression *)

(** X13. Without a probe executable (no path, or an empty one)
    [compress_media] reports that no information is available and returns
    [False] without running anything; the same report follows the probe
    call when that call raises or prints no line with [=]. *)
Theorem compress_without_probe (h : Host) (input_file : string)
    (target_size_mb : Z) (opts : option ConvertOptions) :
  (Py.truthy_str (ffprobe_path h) = false ->
   compress_media h input_file target_size_mb opts = ([Report NoInfo], inr false)) /\
  (forall p, ffprobe_path h = Some p -> p <> "" ->
     run_probe h (probe_cmd p input_file) = None \/
     (exists out, run_probe h (probe_cmd p input_file) = Some out /\
                  forall line, line ∈ split nl out -> split_once "=" line = None) ->
     compress_media h input_file target_size_mb opts
     = ([Probe (probe_cmd p input_file); Report NoInfo], inr false)).
Proof.
  split.
  - intros Hp. unfold compress_media, get_info.
    destruct (ffprobe_path h) as [p|]; [|reflexivity].
    cbn in Hp. apply negb_false_iff in Hp. by rewrite Hp.
  - intros p Hp Hne Hrun. unfold compress_media, get_info. rewrite Hp.
    apply String.eqb_neq in Hne. rewrite Hne.
    destruct Hrun as [Hrun|(out & Hrun & Hlines)]; rewrite Hrun.
    + reflexivity.
    + cbn [lift bind ret emit catch app].
      apply parse_info_empty in Hlines. rewrite Hlines. reflexivity.
Qed.

Lemma compress_without_probe_witness :
  compress_media
    (mkHost (Some "ffmpeg.exe") (Some "ffprobe.exe") (fun _ => true) (fun _ => None)
            (fun _ => Some "clip.mp4: Invalid data found when processing input")
            (fun _ => Some (mkRun 0 (Some 1))))
    "clip.mp4" 50 None
  = ([Probe (probe_cmd "ffprobe.exe" "clip.mp4"); Report NoInfo], inr false).
Proof.
  apply (proj2 (compress_without_probe
    (mkHost (Some "ffmpeg.exe") (Some "ffprobe.exe") (fun _ => true) (fun _ => None)
            (fun _ => Some "clip.mp4: Invalid data found when processing input")
            (fun _ => Some (mkRun 0 (Some 1))))
    "clip.mp4" 50 None) "ffprobe.exe"); [reflexivity|discriminate|].
  right. eexists. split; [reflexivity|].
  intros line Hl. vm_compute in Hl. apply list_elem_of_singleton in Hl as ->.
  reflexivity.
Defined.

(** X14. For an input classified as an image ([.gif] included) the command
    of [compress_media] is the fixed five-second synthesis: the computed
    bitrate, the audio bitrate and the preset do not appear in it, so the
    target size has no effect. *)
Theorem compress_image_input_ignores_size (ffmpeg input_file : string)
    (o : ConvertOptions) (bits : Z) :
  is_image_ext (Py.lower (Path.suffix input_file)) = true ->
  convert_cmd ffmpeg input_file (output_path input_file "compressed" "mp4" o)
              (comp_opts bits o)
  = [ffmpeg; "-loop"; "1"; "-i"; input_file; "-c:v"; "libx264"; "-t"; "5";
     "-pix_fmt"; "yuv420p"; output_path input_file "compressed" "mp4" o].
Proof.
  intros Hi. unfold convert_cmd. rewrite compressed_path_suffix, Hi.
  change (is_video_ext (Py.lower ".mp4")) with true. reflexivity.
Qed.

Lemma compress_image_input_ignores_size_witness :
  convert_cmd "ffmpeg.exe" "anim.gif" (output_path "anim.gif" "compressed" "mp4" default_options)
              (comp_opts 3774873 default_options)
  = ["ffmpeg.exe"; "-loop"; "1"; "-i"; "anim.gif"; "-c:v"; "libx264"; "-t"; "5";
     "-pix_fmt"; "yuv420p"; "anim_compressed.mp4"].
Proof.
  apply (compress_image_input_ignores_size "ffmpeg.exe" "anim.gif" default_options 3774873).
  reflexivity.
Defined.

(** X15. When the probe reports a duration text that [float] rejects,
    [compress_media] raises [ValueError]: after the probe call there is no
    report, no directory is created and the engine is not started. *)
Theorem compress_unreadable_duration (h : Host) (input_file : string)
    (target_size_mb : Z) (opts : option ConvertOptions)
    (info : gmap string string) (s : string) :
  result (get_info h input_file) = inr info ->
  info <> ∅ ->
  duration_field info = inl s ->
  float_of_str h s = None ->
  compress_media h input_file target_size_mb opts
  = (trace (get_info h input_file), inl ValueError).
Proof.
  intros Hinfo Hne Hd Hf.
  destruct (get_info_cases h input_file) as (t & info' & Hg & _).
  rewrite Hg in Hinfo. cbn in Hinfo. injection Hinfo as ->.
  unfold compress_media. rewrite Hg. cbn [bind trace fst].
  rewrite bool_decide_eq_false_2 by done.
  rewrite Hd. cbn [py_float]. rewrite Hf. cbn. by rewrite app_nil_r.
Qed.

Lemma compress_unreadable_duration_witness :
  compress_media
    (mkHost (Some "ffmpeg.exe") (Some "ffprobe.exe") (fun _ => true) (fun _ => None)
            (fun _ => Some "duration=N/A") (fun _ => Some (mkRun 0 (Some 1))))
    "still.png" 50 None
  = ([Probe (probe_cmd "ffprobe.exe" "still.png")], inl ValueError).
Proof.
  apply (compress_unreadable_duration
    (mkHost (Some "ffmpeg.exe") (Some "ffprobe.exe") (fun _ => true) (fun _ => None)
            (fun _ => Some "duration=N/A") (fun _ => Some (mkRun 0 (Some 1))))
    "still.png" 50 None (parse_info "duration=N/A") "N/A").
  - reflexivity.
  - intros H. apply (f_equal (lookup "duration")) in H. vm_compute in H. discriminate.
  - vm_compute. reflexivity.
  - reflexivity.
Defined.

(** ** Output paths *)

Lemma from_last_dot_ext (s ext : string) :
  Path.has (Ascii.eqb ".") ext = false ->
  Path.from_last_dot (s +:+ "." +:+ ext) = "." +:+ ext.
Proof.
  intros He. induction s as [|c s IH].
  - rewrite app_nil_l_str, app_cons_str, app_nil_l_str.
    cbn [Path.from_last_dot]. by rewrite He.
  - rewrite app_cons_str. cbn [Path.from_last_dot].
    rewrite has_app, app_cons_str. cbn [Path.has]. by rewrite orb_true_r.
Qed.

Lemma take_app_length (d t : string) : Path.take (String.length d) (d +:+ t) = d.
Proof.
  induction d as [|c d IH]; [by destruct t|].
  rewrite app_cons_str. simpl. by rewrite IH.
Qed.

Lemma parent_join (dir : option string) (file : string) :
  Path.has Path.is_sep file = false ->
  Path.parent (Path.join dir file) = dir.
Proof.
  intros Hf. unfold Path.parent. cbv zeta. rewrite name_join by done.
  destruct dir as [d|]; unfold Path.join.
  - assert (Hn : (String.length (d +:+ "\" +:+ file) - String.length file)%nat
                 = S (String.length d)).
    { rewrite !length_app_str. cbn [String.length]. lia. }
    rewrite Hn. by rewrite take_app_length.
  - by rewrite Nat.sub_diag.
Qed.

Lemma output_path_name (input_file suffix ext : string) (o : ConvertOptions) :
  Path.has Path.is_sep suffix = false -> Path.has Path.is_sep ext = false ->
  Path.name (output_path input_file suffix ext o)
  = Path.stem input_file +:+ "_" +:+ suffix +:+ "." +:+ ext.
Proof.
  intros Hs He.
  assert (Hstem : Path.has Path.is_sep (Path.stem input_file) = false).
  { unfold Path.stem. apply has_take, has_sep_name. }
  unfold output_path. rewrite name_join; [done|].
  by rewrite !has_app, Hstem, Hs, He.
Qed.

Lemma output_path_suffix (input_file suffix ext : string) (o : ConvertOptions) :
  Path.has Path.is_sep suffix = false -> Path.has Path.is_sep ext = false ->
  ext <> "" -> Path.has (Ascii.eqb ".") ext = false ->
  Path.suffix (output_path input_file suffix ext o) = "." +:+ ext.
Proof.
  intros Hs He Hne Hdot. unfold Path.suffix. rewrite output_path_name by done.
  assert (Hlen : Nat.leb (String.length ("." +:+ ext)) 1 = false).
  { destruct ext; [done|reflexivity]. }
  destruct (Path.stem input_file) as [|c s].
  - rewrite app_nil_l_str, app_cons_str, app_nil_l_str.
    rewrite from_last_dot_ext by done. by rewrite Hlen.
  - rewrite app_cons_str.
    replace (s +:+ "_" +:+ suffix +:+ "." +:+ ext)
      with ((s +:+ "_" +:+ suffix) +:+ "." +:+ ext)
      by (by rewrite !app_assoc_str).
    rewrite from_last_dot_ext by done. by rewrite Hlen.
Qed.



(** ** One-click conversions *)

Lemma quick_video_unfold (h : Host) (input_file target_format : string)
    (u : ConvertOptions) :
  quick_video_convert h input_file target_format (Some u)
  = bind (_get_output_path input_file "converted" target_format u)
         (fun output => convert h input_file output
                                (Some (quick_video_options target_format u))).
Proof.
  unfold quick_video_convert, quick_video_options, effective_int, effective_str,
    first_of, set_preset, set_quality, set_output_dir, default_options.
  destruct u as [w hh f q br ab c pr ex od].
  destruct (video_presets !! target_format) as [[pw ph pf pq pbr pab pc ppr pex pod]|];
    unfold default, from_option, id, Py.truthy_int, Py.truthy_str;
    cbn [width height fps quality bitrate audio_bitrate codec preset
         extra_args output_dir];
    destruct q as [q|]; try destruct (q =? 0);
    destruct pr as [pr|]; try destruct (String.eqb pr ""); reflexivity.
Qed.

(** X17. [quick_video_convert] takes three things from the caller's
    options: the output directory, a non-zero quality and a non-empty
    preset. Width, height, frame rate, bitrates, codec and [extra_args]
    have no effect, and neither has a quality of 0. *)
Theorem quick_video_ignores_options (h : Host) (input_file target_format : string)
    (u1 u2 : ConvertOptions) :
  output_dir u1 = output_dir u2 ->
  effective_int (quality u1) = effective_int (quality u2) ->
  effective_str (preset u1) = effective_str (preset u2) ->
  quick_video_convert h input_file target_format (Some u1)
  = quick_video_convert h input_file target_format (Some u2).
Proof.
  intros Hd Hq Hp. rewrite !quick_video_unfold, !get_output_path_value.
  unfold quick_video_options, output_path. by rewrite Hd, Hq, Hp.
Qed.

Lemma quick_video_ignores_options_witness :
  quick_video_convert host_100s "clip.avi" "mp4"
    (Some (mkOptions (Some 640) (Some 360) (Some 24) (Some 0) (Some "900k") (Some "64k")
                     (Some "mpeg4") None (Some ["-an"]) None))
  = quick_video_convert host_100s "clip.avi" "mp4" (Some default_options).
Proof. apply quick_video_ignores_options; reflexivity. Defined.

Lemma video_presets_cases (fmt : string) (p : ConvertOptions) :
  video_presets !! fmt = Some p ->
  fmt = "mp4" \/ fmt = "avi" \/ fmt = "mkv" \/ fmt = "mov" \/ fmt = "wmv" \/ fmt = "webm".
Proof.
  intros H. unfold video_presets in H. apply elem_of_list_to_map_2 in H.
  repeat (apply elem_of_cons in H as [[= -> _]|H]; [tauto|]).
  by apply elem_of_nil in H.
Qed.

(** X18. The command of a one-click video conversion, for a format of the
    preset table and an input that is not an image: the table's encoder,
    [-crf] with the caller's non-zero quality or else the preset's,
    [-preset] with the caller's non-empty preset or else the preset's, and
    the default audio arguments; no filter whatever the caller's size. *)
Theorem quick_video_command (h : Host) (ffmpeg input_file target_format : string)
    (p u : ConvertOptions) :
  video_presets !! target_format = Some p ->
  is_image_ext (Py.lower (Path.suffix input_file)) = false ->
  let output := output_path input_file "converted" target_format u in
  quick_video_convert h input_file target_format (Some u)
  = bind (_get_output_path input_file "converted" target_format u)
         (fun output => convert h input_file output
                                (Some (quick_video_options target_format u))) /\
  convert_cmd ffmpeg input_file output (quick_video_options target_format u)
  = [ffmpeg; "-i"; input_file;
     "-c:v"; default "" (codec_map !! ("." +:+ target_format))]
    ++ match first_of (effective_int (quality u)) (quality p) with
       | Some q => ["-crf"; Py.str q]
       | None => []
       end
    ++ match first_of (effective_str (preset u)) (preset p) with
       | Some s => ["-preset"; s]
       | None => []
       end
    ++ ["-c:a"; "aac"; "-b:a"; "192k"; output].
Proof.
  intros Hp Hi output. split; [apply quick_video_unfold|].
  assert (Hsuf : Path.suffix output = "." +:+ target_format).
  { destruct (video_presets_cases _ _ Hp) as [->|[->|[->|[->|[->| ->]]]]];
      by apply output_path_suffix. }
  assert (Hpr : Py.truthy_str (first_of (effective_str (preset u)) (preset p))
                = is_some (first_of (effective_str (preset u)) (preset p))).
  { unfold effective_str. destruct (preset u) as [s|]; cbn.
    - destruct (String.eqb s "") eqn:E; cbn; [|by rewrite E].
      destruct (video_presets_cases _ _ Hp) as [->|[->|[->|[->|[->| ->]]]]];
        vm_compute in Hp; by injection Hp as <-.
    - destruct (video_presets_cases _ _ Hp) as [->|[->|[->|[->|[->| ->]]]]];
        vm_compute in Hp; by injection Hp as <-. }
  unfold convert_cmd. fold output. rewrite Hsuf, Hi.
  unfold quick_video_options. rewrite Hp. unfold default at 1, from_option, id.
  generalize dependent (first_of (effective_str (preset u)) (preset p)).
  generalize (first_of (effective_int (quality u)) (quality p)).
  intros q pr Hpr.
  destruct (video_presets_cases _ _ Hp) as [->|[->|[->|[->|[->| ->]]]]];
    vm_compute in Hp; injection Hp as <-;
    rewrite build_video_opts_shape;
    unfold gif_path, codec_args, rate_args, preset_args, audio_args, _build_filter;
    cbn [width height fps quality bitrate audio_bitrate codec preset extra_args];
    rewrite Hpr; destruct q as [q|]; destruct pr as [pr|]; reflexivity.
Qed.

Lemma quick_video_command_witness :
  convert_cmd "ffmpeg.exe" "clip.avi"
    (output_path "clip.avi" "converted" "webm" default_options)
    (quick_video_options "webm" default_options)
  = ["ffmpeg.exe"; "-i"; "clip.avi"; "-c:v"; "libvpx-vp9"; "-crf"; "28";
     "-c:a"; "aac"; "-b:a"; "192k"; "clip_converted.webm"].
Proof.
  apply (quick_video_command host_100s "ffmpeg.exe" "clip.avi" "webm"
           (set_quality default_options (Some 28)) default_options);
    reflexivity.
Defined.

(** X19. A one-click image conversion to [jpg], [jpeg], [png], [webp] or
    [bmp] converts with the table's quality and nothing else of the
    caller's options but the output directory. Its command is the input,
    the seek and one-frame limit when the input is a video, the format's
    fixed quality arguments, [-y] and the output. *)
Theorem quick_image_command (h : Host) (ffmpeg input_file target_format : string)
    (u : ConvertOptions) :
  target_format = "jpg" \/ target_format = "jpeg" \/ target_format = "png" \/
  target_format = "webp" \/ target_format = "bmp" ->
  let output := output_path input_file "converted" target_format u in
  let q := mkOptions None None None (default (Some 2) (quality_map !! target_format))
                     None None None None None (output_dir u) in
  quick_image_convert h input_file target_format (Some u)
  = bind (_get_output_path input_file "converted" target_format u)
         (fun output => convert h input_file output (Some q)) /\
  convert_cmd ffmpeg input_file output q
  = [ffmpeg; "-i"; input_file]
    ++ (if is_video_ext (Py.lower (Path.suffix input_file))
        then ["-ss"; "00:00:01"; "-vframes"; "1"] else [])
    ++ quick_image_args target_format ++ ["-y"; output].
Proof.
  intros Hf output q. split; [reflexivity|].
  assert (Hsuf : Path.suffix output = "." +:+ target_format).
  { destruct Hf as [->|[->|[->|[->| ->]]]]; by apply output_path_suffix. }
  rewrite convert_cmd_image_output;
    [|rewrite Hsuf; by destruct Hf as [->|[->|[->|[->| ->]]]]].
  rewrite Hsuf, build_image_opts_shape. subst q.
  destruct Hf as [->|[->|[->|[->| ->]]]];
    destruct (is_video_ext (Py.lower (Path.suffix input_file))); reflexivity.
Qed.

Lemma quick_image_command_witness :
  convert_cmd "ffmpeg.exe" "photo.bmp"
    (output_path "photo.bmp" "converted" "png" default_options)
    (mkOptions None None None (Some 2) None None None None None None)
  = ["ffmpeg.exe"; "-i"; "photo.bmp"; "-compression_level"; "0"; "-y";
     "photo_converted.png"].
Proof.
  apply (quick_image_command host_100s "ffmpeg.exe" "photo.bmp" "png" default_options).
  right. right. by left.
Defined.

(** ** Locating the executables *)

(** X20. Whatever [_find_ffmpeg] returns has passed [_verify]: its
    [-version] call exited with status 0 and printed the word [version].
    The returned path is either one of the candidate paths, and then that
    file exists, or the first line of what a successful [where ffmpeg]
    printed. *)
Theorem find_ffmpeg_verified (sys : Sys) (p : string) :
  _find_ffmpeg sys = Some p ->
  _verify sys p = true /\
  (exists rc out, sys_run sys [p; "-version"] = Some (rc, out) /\ rc = 0 /\
                  PyStr.contains "version" out = true) /\
  (In p (ffmpeg_candidates sys) /\ sys_exists sys p = true \/
   exists out, sys_run sys ["where"; "ffmpeg"] = Some (0, out) /\
               p = hd EmptyString (split nl (PyStr.strip out))).
Proof.
  intros H.
  assert (Hv : _verify sys p = true /\
    (In p (ffmpeg_candidates sys) /\ sys_exists sys p = true \/
     exists out, sys_run sys ["where"; "ffmpeg"] = Some (0, out) /\
                 p = hd EmptyString (split nl (PyStr.strip out)))).
  { unfold _find_ffmpeg in H.
    destruct (find _ (ffmpeg_candidates sys)) as [c|] eqn:Hfind.
    - injection H as ->. apply find_some in Hfind as [Hin Hc].
      apply andb_prop in Hc as [He Hc]. split; [done|by left].
    - destruct (sys_run sys ["where"; "ffmpeg"]) as [[rc out]|] eqn:Hrun; [|done].
      destruct (Z.eqb_spec rc 0) as [->|]; [|done].
      destruct (_verify sys (hd EmptyString (split nl (PyStr.strip out)))) eqn:Hver;
        [|done].
      injection H as <-. split; [done|]. right. by exists out. }
  destruct Hv as [Hv Hwhere]. split; [exact Hv|]. split; [|exact Hwhere].
  unfold _verify in Hv.
  destruct (sys_run sys [p; "-version"]) as [[rc out]|]; [|done].
  apply andb_prop in Hv as [Hrc Hc]. apply Z.eqb_eq in Hrc.
  by exists rc, out.
Qed.

Lemma find_ffmpeg_verified_witness :
  _verify (mkSys "C:\app" "C:\app"
             (fun p => String.eqb p "C:\app\ffmpeg\ffmpeg.exe")
             (fun _ => Some (0, "ffmpeg version 6.0")))
          "C:\app\ffmpeg\ffmpeg.exe" = true.
Proof.
  apply (find_ffmpeg_verified
    (mkSys "C:\app" "C:\app" (fun p => String.eqb p "C:\app\ffmpeg\ffmpeg.exe")
           (fun _ => Some (0, "ffmpeg version 6.0")))
    "C:\app\ffmpeg\ffmpeg.exe").
  reflexivity.
Defined.

Lemma find_first (A : Type) (f : A -> bool) (l1 l2 : list A) (x : A) :
  (forall y, In y l1 -> f y = false) -> f x = true ->
  find f (l1 ++ x :: l2) = Some x.
Proof.
  intros Hl Hx. induction l1 as [|y l1 IH]; simpl.
  - by rewrite Hx.
  - rewrite (Hl y) by (by left). apply IH. intros z Hz. apply Hl. by right.
Qed.

(** X21. The candidates next to the program are tried in order and come
    before the [PATH] lookup: the first candidate that exists and
    verifies is the result, whatever [where ffmpeg] would print. When no
    candidate qualifies and [where] fails or raises, the result is [None]. *)
Theorem find_ffmpeg_order (sys : Sys) :
  (forall l1 p l2,
     ffmpeg_candidates sys = l1 ++ p :: l2 ->
     (forall c, In c l1 -> (sys_exists sys c && _verify sys c)%bool = false) ->
     sys_exists sys p = true -> _verify sys p = true ->
     _find_ffmpeg sys = Some p) /\
  ((forall c, In c (ffmpeg_candidates sys) ->
      (sys_exists sys c && _verify sys c)%bool = false) ->
   (sys_run sys ["where"; "ffmpeg"] = None \/
    exists rc out, sys_run sys ["where"; "ffmpeg"] = Some (rc, out) /\ rc <> 0) ->
   _find_ffmpeg sys = None).
Proof.
  split.
  - intros l1 p l2 Hc Hl1 He Hv. unfold _find_ffmpeg. rewrite Hc.
    rewrite find_first; [done|done|]. by rewrite He, Hv.
  - intros Hall Hwhere. unfold _find_ffmpeg.
    destruct (find _ (ffmpeg_candidates sys)) as [c|] eqn:Hfind.
    + apply find_some in Hfind as [Hin Hc]. rewrite (Hall c Hin) in Hc. discriminate.
    + destruct Hwhere as [->|(rc & out & -> & Hrc)]; [done|].
      apply Z.eqb_neq in Hrc. by rewrite Hrc.
Qed.

Lemma find_ffmpeg_order_witness :
  _find_ffmpeg (mkSys "C:\app" "D:\bin" (fun _ => true)
                  (fun cmd => if bool_decide (cmd = ["C:\app\ffmpeg.exe"; "-version"])
                              then Some (1, "broken")
                              else Some (0, "ffmpeg version 6.0")))
  = Some "C:\app\ffmpeg\ffmpeg.exe".
Proof.
  apply (proj1 (find_ffmpeg_order _) ["C:\app\ffmpeg.exe"] "C:\app\ffmpeg\ffmpeg.exe"
           ["D:\bin\ffmpeg.exe"; "D:\bin\ffmpeg\ffmpeg.exe"]).
  - reflexivity.
  - intros c [<-|[]]. reflexivity.
  - reflexivity.
  - reflexivity.
Defined.

(** X22. The probe path stored at start-up is only set when an engine was
    found; it then names an existing file [ffprobe.exe] in the engine's
    own directory. *)
Theorem init_paths_probe (sys : Sys) (probe : string) :
  snd (init_paths sys) = Some probe ->
  exists ffmpeg,
    fst (init_paths sys) = Some ffmpeg /\ _verify sys ffmpeg = true /\
    sys_exists sys probe = true /\
    Path.name probe = "ffprobe.exe" /\
    Path.parent probe = Path.parent ffmpeg.
Proof.
  unfold init_paths. cbn [fst snd].
  destruct (_find_ffmpeg sys) as [p|] eqn:Hf; [|done].
  destruct (String.eqb p ""); [done|]. unfold _find_ffprobe.
  destruct (sys_exists sys _) eqn:He; [|done]. intros [= <-].
  exists p. split; [done|]. split.
  - unfold _find_ffmpeg in Hf.
    destruct (find _ (ffmpeg_candidates sys)) as [c|] eqn:Hfind.
    + injection Hf as ->. apply find_some in Hfind as [_ Hc].
      by apply andb_prop in Hc as [_ Hc].
    + destruct (sys_run sys ["where"; "ffmpeg"]) as [[rc out]|]; [|done].
      destruct (rc =? 0); [|done].
      destruct (_verify sys (hd EmptyString (split nl (PyStr.strip out)))) eqn:Hver;
        [|done].
      by injection Hf as <-.
  - split; [done|]. split; [by apply name_join|by apply parent_join].
Qed.

Lemma init_paths_probe_witness :
  exists ffmpeg,
    fst (init_paths (mkSys "C:\app" "C:\app" (fun _ => true)
                           (fun _ => Some (0, "ffmpeg version 6.0")))) = Some ffmpeg /\
    Path.parent "C:\app\ffprobe.exe" = Path.parent ffmpeg.
Proof.
  destruct (init_paths_probe
    (mkSys "C:\app" "C:\app" (fun _ => true) (fun _ => Some (0, "ffmpeg version 6.0")))
    "C:\app\ffprobe.exe" eq_refl) as (f & H1 & _ & _ & _ & H2).
  exists f. split; [exact H1|exact H2].
Defined.

(** ** Prompts *)

Lemma rstrip_cons (p : ascii -> bool) (c : ascii) (s : string) :
  PyStr.rstrip p (String c s)
  = match PyStr.rstrip p s with
    | EmptyString => if p c then EmptyString else String c EmptyString
    | r => String c r
    end.
Proof. reflexivity. Qed.

Lemma rstrip_idem (p : ascii -> bool) (s : string) :
  PyStr.rstrip p (PyStr.rstrip p s) = PyStr.rstrip p s.
Proof.
  induction s as [|c s IH]; [done|]. rewrite rstrip_cons.
  destruct (PyStr.rstrip p s) as [|c' r] eqn:E.
  - destruct (p c) eqn:Hc; [done|]. rewrite rstrip_cons. cbn. by rewrite Hc.
  - rewrite rstrip_cons, IH. done.
Qed.

Lemma lstrip_head (p : ascii -> bool) (s : string) : head_outside p (PyStr.lstrip p s).
Proof.
  induction s as [|c s IH]; [done|]. cbn [PyStr.lstrip].
  by destruct (p c) eqn:Hc.
Qed.

Lemma rstrip_head (p : ascii -> bool) (s : string) :
  head_outside p s -> head_outside p (PyStr.rstrip p s).
Proof.
  destruct s as [|c s]; [done|]. cbn [PyStr.rstrip head_outside]. intros Hc.
  destruct (PyStr.rstrip p s); by rewrite ?Hc.
Qed.

Lemma lstrip_fixed (p : ascii -> bool) (s : string) :
  head_outside p s -> PyStr.lstrip p s = s.
Proof. destruct s as [|c s]; [done|]. cbn. by intros ->. Qed.

Lemma strip_with_fixed (p : ascii -> bool) (s : string) :
  PyStr.rstrip p (PyStr.lstrip p (PyStr.rstrip p (PyStr.lstrip p s)))
  = PyStr.rstrip p (PyStr.lstrip p s).
Proof.
  rewrite (lstrip_fixed p (PyStr.rstrip p _)) by apply rstrip_head, lstrip_head.
  apply rstrip_idem.
Qed.

(** X23. [get_file] reads one line, and returns a path only when that path
    exists; the path is the line without its surrounding white space and
    double quotes, so stripping quotes from it again changes nothing. *)
Theorem get_file_result (h : Host) (lines rest : list string) (t : list event)
    (f : string) :
  get_file h lines = (t, Some (Some f, rest)) ->
  path_exists h f = true /\ t = [] /\
  (exists l, lines = l :: rest /\ f = PyStr.strip_quotes (PyStr.strip l)) /\
  PyStr.strip_quotes f = f.
Proof.
  unfold get_file, cbind, input, cret. destruct lines as [|l lines']; [done|].
  destruct (path_exists h (PyStr.strip_quotes (PyStr.strip l))) eqn:He; [|done].
  intros [= <- <- <-]. split; [done|]. split; [done|]. split; [by exists l|].
  apply strip_with_fixed.
Qed.

Lemma get_file_result_witness :
  path_exists host_100s "C:\clips\my clip.mp4" = true.
Proof.
  apply (get_file_result host_100s
           [String PyStr.quote ("C:\clips\my clip.mp4" +:+ String PyStr.quote " "); "1"]
           ["1"] [] "C:\clips\my clip.mp4").
  reflexivity.
Defined.

(** X24. [get_output_dir] returns a directory only after the answer [2]
    and a non-empty path: a path that is a directory already is returned
    as it is, any other is returned after [mkdir] succeeded. Nothing is
    created for an existing directory, and every other answer gives
    [None] after one line. *)
Theorem get_output_dir_result (d : Dirs) (lines rest : list string)
    (t : list event) (v : option string) :
  get_output_dir d lines = (t, Some (v, rest)) ->
  (forall dir, v = Some dir ->
     dir <> "" /\
     (exists c l, lines = c :: l :: rest /\ PyStr.strip c = "2" /\
                  dir = PyStr.strip_quotes (PyStr.strip l)) /\
     (is_dir d dir = true /\ t = [] \/
      is_dir d dir = false /\ mkdir_ok d dir = true /\ t = [Mkdir dir])) /\
  (forall e, e ∈ t -> exists dir, e = Mkdir dir /\ is_dir d dir = false) /\
  (forall c l, lines = c :: l -> PyStr.strip c <> "2" -> v = None /\ rest = l /\ t = []).
Proof.
  unfold get_output_dir, cbind, input, cret, cemit.
  destruct lines as [|c lines']; [done|].
  destruct (String.eqb_spec (PyStr.strip c) "2") as [Hc|Hc].
  2:{ intros [= <- <- <-]. split; [done|]. split.
      - intros e He. by apply elem_of_nil in He.
      - intros c' l [= <- <-] _. done. }
  destruct lines' as [|l lines'']; [done|].
  set (dir := PyStr.strip_quotes (PyStr.strip l)).
  destruct (String.eqb_spec dir "") as [Hd|Hd]; cbn [negb andb].
  { intros [= <- <- <-]. split; [done|]. split.
    - intros e He. by apply elem_of_nil in He.
    - intros c' l' [= <- <-] Hne. done. }
  destruct (is_dir d dir) eqn:Hdir.
  - intros [= <- <- <-]. split; [|split].
    + intros ? [= <-]. split; [done|]. split; [|by left].
      by exists c, l.
    + intros e He. by apply elem_of_nil in He.
    + intros c' l' [= <- <-] Hne. done.
  - destruct (mkdir_ok d dir) eqn:Hmk; intros [= <- <- <-]; (split; [|split]).
    + intros ? [= <-]. split; [done|]. split; [|by right].
      by exists c, l.
    + intros e He. apply list_elem_of_singleton in He as ->. by exists dir.
    + intros c' l' [= <- <-] Hne. done.
    + done.
    + intros e He. apply list_elem_of_singleton in He as ->. by exists dir.
    + intros c' l' [= <- <-] Hne. done.
Qed.

Lemma get_output_dir_result_witness :
  "out" <> "" /\
  (is_dir (mkDirs (fun _ => false) (fun _ => true)) "out" = true /\ [Mkdir "out"] = [] \/
   is_dir (mkDirs (fun _ => false) (fun _ => true)) "out" = false /\
   mkdir_ok (mkDirs (fun _ => false) (fun _ => true)) "out" = true /\
   [Mkdir "out"] = [Mkdir "out"]).
Proof.
  destruct (proj1 (get_output_dir_result (mkDirs (fun _ => false) (fun _ => true))
                     [" 2"; " out "; "x"] ["x"] [Mkdir "out"] (Some "out") eq_refl)
                  "out" eq_refl) as (H1 & _ & H2).
  split; [exact H1|exact H2].
Defined.

Lemma cbind_inv {A B} (m : Console A) (k : A -> Console B) (lines rest : list string)
    (t : list event) (b : B) :
  cbind m k lines = (t, Some (b, rest)) ->
  exists t1 a r1 t2,
    m lines = (t1, Some (a, r1)) /\ k a r1 = (t2, Some (b, rest)) /\ t = t1 ++ t2.
Proof.
  unfold cbind. destruct (m lines) as [t1 [[a r1]|]]; [|done].
  destruct (k a r1) as [t2 r] eqn:Hk. intros [= <- ->].
  by exists t1, a, r1, t2.
Qed.

Lemma input_inv (lines rest : list string) (t : list event) (l : string) :
  input lines = (t, Some (l, rest)) -> lines = l :: rest /\ t = [].
Proof. destruct lines; [done|]. by intros [= <- <- <-]. Qed.

Lemma isdigit_int_nonneg (s : string) : PyStr.isdigit s = true -> 0 <= PyStr.int s.
Proof.
  intros H. apply int_from_nonneg; [|done]. by destruct s.
Qed.

(** X25. The options entered at the prompts of [advanced_options]: every
    number that is set is non-negative (so never the marker -1), a height
    comes only with a width, a bitrate or preset that is set is not empty,
    and codec, audio bitrate and [extra_args] are never set. *)
Theorem advanced_options_range (d : Dirs) (lines rest : list string)
    (t : list event) (o : ConvertOptions) :
  advanced_options d lines = (t, Some (o, rest)) ->
  (forall v, width o = Some v -> 0 <= v) /\
  (forall v, height o = Some v -> 0 <= v) /\
  (forall v, quality o = Some v -> 0 <= v) /\
  (forall v, fps o = Some v -> 0 <= v) /\
  (width o = None -> height o = None) /\
  bitrate o <> Some "" /\ preset o <> Some "" /\
  codec o = None /\ audio_bitrate o = None /\ extra_args o = None.
Proof.
  unfold advanced_options. intros H.
  apply cbind_inv in H as (t0 & dir & r0 & t0' & _ & H & _).
  apply cbind_inv in H as (t1 & l1 & r1 & t1' & _ & H & _).
  apply cbind_inv in H as (t2 & l2 & r2 & t2' & _ & H & _).
  apply cbind_inv in H as (t3 & l3 & r3 & t3' & _ & H & _).
  apply cbind_inv in H as (t4 & l4 & r4 & t4' & _ & H & _).
  apply cbind_inv in H as (t5 & l5 & r5 & t5' & _ & H & _).
  unfold cret in H. injection H as _ <- _.
  pose proof (parse_size_bounds (PyStr.strip l1)) as (Hw & Hh & Hwh).
  destruct (parse_size (PyStr.strip l1)) as [w hh]. cbn [fst snd] in Hw, Hh, Hwh.
  pose proof (isdigit_int_nonneg (PyStr.strip l2)) as Hq.
  pose proof (isdigit_int_nonneg (PyStr.strip l3)) as Hf.
  destruct (String.eqb (PyStr.strip l1) ""); destruct (PyStr.isdigit (PyStr.strip l2));
    destruct (PyStr.isdigit (PyStr.strip l3));
    destruct (String.eqb_spec (PyStr.strip l4) "");
    destruct (String.eqb_spec (PyStr.strip l5) "");
    cbn [width height fps quality bitrate audio_bitrate codec preset extra_args
         output_dir with_size set_quality set_preset set_output_dir default_options];
    repeat split; try done; try (intros v [= <-]; by auto); congruence.
Qed.

Lemma advanced_options_range_witness : 0 <= 720.
Proof.
  apply (proj1 (proj2 (advanced_options_range (mkDirs (fun _ => false) (fun _ => true))
    ["1"; "1280x720"; "23"; ""; " 2M "; ""] []
    [] (mkOptions (Some 1280) (Some 720) None (Some 23) (Some "2M") None None None None None)
    eq_refl)) 720).
  reflexivity.
Defined.
